(** * Mindly: the document indexing and retrieval core (rag_chain.py, utils.py)

    A shallow embedding of the course naming, indexing, retrieval, status,
    listing, deletion and diagnostic functions of [rag_chain.py], of [slugify]
    of [utils.py], of [build_context_block] of [app.py] and of the class
    [SmartCache] of [cache_utils.py].

    Conventions of the model.
    - Python [str] values are lists of characters with code points below 256
      ([list ascii], read as Latin-1).  [py "..."] turns a literal into one.
    - The string built-ins the code calls ([strip], [lower], [re.sub] with the
      class [[^a-z0-9]+], [strip("-")], [replace], [title], [endswith]) are
      written out as functions on such lists.
    - The vector store, the embedding model, the text splitter and the file
      readers are libraries; the model gives the store the behaviour the code
      relies on (a missing collection makes [get_collection] and
      [delete_collection] raise, [from_texts] adds to the collection of that
      name) and takes the splitter, the readers and the search as parameters.
    - The Streamlit memoisation decorators ([st.cache_resource],
      [st.cache_data]) are transparent: each function is modelled by its body.
      The progress messages ([st.info], [st.error], [st.success]) have no
      effect on the modelled state.
    - The backup copy of an upload under [FILES_ROOT] is written and read back
      at once; the model hands the uploaded bytes to the reader and does not
      track the directory. *)

From Stdlib Require Import Ascii String List Arith Lia Bool.
From stdpp Require Import gmap strings list.

Open Scope list_scope.

Abbreviation str := (list ascii).

Definition py (s : string) : str := list_ascii_of_string s.

Arguments py : simpl never.

(** ** Characters *)

Module Char.

Definition code (c : ascii) : nat := nat_of_ascii c.

Definition between (lo hi : nat) (c : ascii) : bool :=
  (lo <=? code c) && (code c <=? hi).

(** The regular-expression class [[a-z0-9]]. *)
Definition alnum (c : ascii) : bool := between 97 122 c || between 48 57 c.

Definition hyphen : ascii := "-"%char.
Definition space : ascii := " "%char.

Definition is_hyphen (c : ascii) : bool := Ascii.eqb c hyphen.

(** [str.isspace] on one character: TAB..CR, FS..US, SPACE, NEL, NBSP. *)
Definition isspace (c : ascii) : bool :=
  between 9 13 c || between 28 32 c || (code c =? 133) || (code c =? 160).

Definition is_upper (c : ascii) : bool :=
  between 65 90 c || (between 192 222 c && negb (code c =? 215)).

Definition is_lower (c : ascii) : bool :=
  between 97 122 c || (between 223 255 c && negb (code c =? 247))
  || (code c =? 170) || (code c =? 181) || (code c =? 186).

(** A character with case, as [str.title] tests its predecessor. *)
Definition is_cased (c : ascii) : bool := is_upper c || is_lower c.

Definition lower (c : ascii) : ascii :=
  if is_upper c then ascii_of_nat (code c + 32) else c.

(** Upper-casing is exact on ASCII; the three lower-case Latin-1 letters
    whose capital lies outside Latin-1 are left as they are. *)
Definition upper (c : ascii) : ascii :=
  if between 97 122 c || (between 224 254 c && negb (code c =? 247))
  then ascii_of_nat (code c - 32) else c.

End Char.

(** ** String built-ins *)

Module Str.

Import Char.

(** [s.lower()] *)
Definition lower (s : str) : str := map Char.lower s.

(** Dropping a leading run of characters that satisfy [p]. *)
Fixpoint lstrip (p : ascii -> bool) (s : str) : str :=
  match s with
  | [] => []
  | c :: r => if p c then lstrip p r else s
  end.

(** Dropping a trailing run of characters that satisfy [p]. *)
Fixpoint rstrip (p : ascii -> bool) (s : str) : str :=
  match s with
  | [] => []
  | c :: r =>
      match rstrip p r with
      | [] => if p c then [] else [c]
      | t => c :: t
      end
  end.

Definition strip_by (p : ascii -> bool) (s : str) : str := rstrip p (lstrip p s).

(** [s.strip()] *)
Definition strip (s : str) : str := strip_by isspace s.

(** [s.strip(chars)] *)
Definition strip_chars (chars : str) (s : str) : str :=
  strip_by (fun c => existsb (Ascii.eqb c) chars) s.

(** [re.sub(r"[^a-z0-9]+", "-", s)]: every maximal run of characters outside
    [[a-z0-9]] is one match of the pattern and is replaced by one hyphen.
    [in_run] tells that the previous character belonged to the current
    match. *)
Fixpoint sub_runs (in_run : bool) (s : str) : str :=
  match s with
  | [] => []
  | c :: r =>
      if alnum c then c :: sub_runs false r
      else if in_run then sub_runs true r
      else hyphen :: sub_runs true r
  end.

Definition re_sub_non_alnum (s : str) : str := sub_runs false s.

(** [s.replace("-", " ")] *)
Definition replace_hyphens (s : str) : str :=
  map (fun c => if is_hyphen c then space else c) s.

(** [s.title()] *)
Fixpoint title_from (prev_cased : bool) (s : str) : str :=
  match s with
  | [] => []
  | c :: r =>
      (if prev_cased then Char.lower c else Char.upper c)
        :: title_from (is_cased c) r
  end.

Definition title (s : str) : str := title_from false s.

(** [s.startswith(p)] *)
Fixpoint startswith (p s : str) : bool :=
  match p, s with
  | [], _ => true
  | _ :: _, [] => false
  | a :: p', b :: s' => Ascii.eqb a b && startswith p' s'
  end.

(** [s.endswith(p)] *)
Definition endswith (p s : str) : bool := startswith (rev p) (rev s).

End Str.

(** ** utils.py *)

Module Utils.

Definition slugify (text : str) : str :=
  let text := Str.lower (Str.strip text) in
  let text := Str.re_sub_non_alnum text in
  Str.strip_chars (py "-") text.

End Utils.

(** ** rag_chain.py: naming *)

Module Naming.

Definition _slugify (text : str) : str :=
  let text := Str.lower (Str.strip text) in
  Str.strip_chars (py "-") (Str.re_sub_non_alnum text).

Definition _get_collection_name (course_name : str) : str :=
  let course_slug := _slugify course_name in
  let collection_name := py "course-" ++ course_slug in
  if 63 <? length collection_name then take 63 collection_name
  else collection_name.

(** The name [list_all_courses] shows for a collection:
    [collection.name[7:].replace("-", " ").title()]. *)
Definition display_name (collection_name : str) : str :=
  Str.title (Str.replace_hyphens (drop 7 collection_name)).

End Naming.

(** ** The shape of a slug *)

Module Shape.

Import Char.

(** Does [s] start, or end, with a character that satisfies [p]? *)
Definition starts (p : ascii -> bool) (s : str) : bool :=
  match s with
  | [] => false
  | c :: _ => p c
  end.

Fixpoint ends (p : ascii -> bool) (s : str) : bool :=
  match s with
  | [] => false
  | c :: r => match r with [] => p c | _ => ends p r end
  end.

Definition slug_char (c : ascii) : bool := alnum c || is_hyphen c.

Fixpoint no_double_hyphen (s : str) : bool :=
  match s with
  | [] => true
  | c :: r => negb (is_hyphen c && starts is_hyphen r) && no_double_hyphen r
  end.

(** A non-empty string over [[a-z0-9-]] with no leading, trailing or
    consecutive hyphens. *)
Definition valid_slug (s : str) : bool :=
  match s with
  | [] => false
  | _ => forallb slug_char s && negb (starts is_hyphen s)
         && negb (ends is_hyphen s) && no_double_hyphen s
  end.

(** The same shape in one scan: only [[a-z0-9]] and single hyphens, and no
    hyphen first when [after_hyphen] is set. *)
Fixpoint sep_ok (after_hyphen : bool) (s : str) : bool :=
  match s with
  | [] => true
  | c :: r =>
      if alnum c then sep_ok false r
      else is_hyphen c && negb after_hyphen && sep_ok true r
  end.

(** The maximal runs of [[a-z0-9]] characters of [s], in order. *)
Definition push (c : ascii) (ws : list str) : list str :=
  match ws with
  | [] => [[c]]
  | w :: ws' => (c :: w) :: ws'
  end.

Fixpoint words (s : str) : list str :=
  match s with
  | [] => []
  | c :: r =>
      if alnum c then
        if starts alnum r then push c (words r) else [c] :: words r
      else words r
  end.

(** The words with one hyphen between neighbours. *)
Fixpoint join (ws : list str) : str :=
  match ws with
  | [] => []
  | w :: ws' => match ws' with [] => w | _ => w ++ hyphen :: join ws' end
  end.

(** The slug after the words of the specification: the course name in lower
    case, every maximal run of characters outside [[a-z0-9]] collapsed to one
    hyphen, leading and trailing hyphens stripped. *)
Definition slug_spec (course_name : str) : str :=
  Str.strip_by is_hyphen (Str.sub_runs false (Str.lower course_name)).

(** The same read off the name: its alphanumeric runs, lower-cased, with one
    hyphen between neighbours. *)
Definition slug_words (course_name : str) : str := join (words (Str.lower course_name)).

(** The collection name after the words of the specification. *)
Definition collection_name_spec (course_name : str) : str :=
  take 63 (py "course-" ++ slug_spec course_name).

End Shape.

(** ** A splitter for the examples *)

Module Chunker.

(** The splitter behind [_split] is [RecursiveCharacterTextSplitter] of the
    langchain package, whose code is not part of the source tree; the model
    takes it as a parameter.  To run examples it needs a stand-in: windows of
    [size] characters, each one starting [step] characters after the start of
    the previous one, the last window ending with the text.  Nothing is said
    of the library from it.  [fuel] bounds the number of windows. *)
Fixpoint windows (fuel size step : nat) (text : str) : list str :=
  match fuel with
  | 0 => []
  | S fuel' =>
      if length text <=? size then [text]
      else take size text :: windows fuel' size step (drop step text)
  end.

Definition chunk (text : str) (size overlap : nat) : list str :=
  windows (length text) size (size - overlap) text.

End Chunker.

(** ** Exceptions and the state monad of the indexing code *)

Inductive exn : Type :=
| ConnectionError
| NotFoundError (name : str)
| ModelLoadError
| ValueError (msg : str)
| ExternalError (msg : str).

Inductive result (A : Type) : Type :=
| Ok (a : A)
| Raise (e : exn).

Arguments Ok {A} a.
Arguments Raise {A} e.

(** [str(e)] *)
Definition exn_str (e : exn) : str :=
  match e with
  | ConnectionError => py "connection failed"
  | NotFoundError name => py "Collection " ++ name ++ py " does not exist."
  | ModelLoadError => py "embedding model failed to load"
  | ValueError msg => msg
  | ExternalError msg => msg
  end.

(** ** The vector store backend *)

Record Metadata : Type := { source : str; course : str }.

Record Document : Type := { page_content : str; metadata : Metadata }.

Inductive Client : Type := CloudClient | PersistentClient.

Inductive Embeddings : Type := HuggingFaceEmbeddings.

(** What lies outside the process: whether the remote service answers the
    heartbeat, whether the local persistent store opens, whether the embedding
    model loads, and the collections each of the two stores holds. *)
Record World : Type := {
  cloud_up : bool;
  local_up : bool;
  embeddings_up : bool;
  cloud_store : gmap str (list Document);
  local_store : gmap str (list Document)
}.

Definition M (A : Type) : Type := World -> result A * World.

Definition ret {A} (a : A) : M A := fun w => (Ok a, w).

Definition raise {A} (e : exn) : M A := fun w => (Raise e, w).

Definition bind {A B} (m : M A) (k : A -> M B) : M B :=
  fun w =>
    match m w with
    | (Ok a, w') => k a w'
    | (Raise e, w') => (Raise e, w')
    end.

(** [try: m except Exception as e: h e]; what [m] did to the world before it
    raised stays done. *)
Definition try_except {A} (m : M A) (h : exn -> M A) : M A :=
  fun w =>
    match m w with
    | (Ok a, w') => (Ok a, w')
    | (Raise e, w') => h e w'
    end.

Definition lift {A} (r : result A) : M A := fun w => (r, w).

Declare Scope py_scope.
Delimit Scope py_scope with py.
Notation "x <- m ;; k" := (bind m (fun x => k))
  (at level 100, m at next level, right associativity) : py_scope.
Notation "'try' m 'except' h" := (try_except m h)
  (at level 100, m at level 200, h at level 9) : py_scope.

Module Chroma.

Definition store_of (c : Client) (w : World) : gmap str (list Document) :=
  match c with
  | CloudClient => cloud_store w
  | PersistentClient => local_store w
  end.

Definition set_store (c : Client) (s : gmap str (list Document)) (w : World) : World :=
  match c with
  | CloudClient =>
      {| cloud_up := cloud_up w; local_up := local_up w;
         embeddings_up := embeddings_up w;
         cloud_store := s; local_store := local_store w |}
  | PersistentClient =>
      {| cloud_up := cloud_up w; local_up := local_up w;
         embeddings_up := embeddings_up w;
         cloud_store := cloud_store w; local_store := s |}
  end.

(** [chromadb.CloudClient(...)] followed by [client.heartbeat()] *)
Definition cloud_client : M Client :=
  fun w => if cloud_up w then (Ok CloudClient, w) else (Raise ConnectionError, w).

(** [chromadb.PersistentClient(path=PERSIST_ROOT)] *)
Definition persistent_client : M Client :=
  fun w => if local_up w then (Ok PersistentClient, w) else (Raise ConnectionError, w).

(** [client.get_collection(name=...)]: the handle of an existing collection
    (its name), an exception for a missing one. *)
Definition get_collection (c : Client) (name : str) : M str :=
  fun w =>
    match store_of c w !! name with
    | Some _ => (Ok name, w)
    | None => (Raise (NotFoundError name), w)
    end.

(** [collection.count()] *)
Definition count (c : Client) (collection : str) : M nat :=
  fun w =>
    match store_of c w !! collection with
    | Some docs => (Ok (length docs), w)
    | None => (Raise (NotFoundError collection), w)
    end.

(** [client.delete_collection(name=...)] *)
Definition delete_collection (c : Client) (name : str) : M unit :=
  fun w =>
    match store_of c w !! name with
    | Some _ => (Ok tt, set_store c (delete name (store_of c w)) w)
    | None => (Raise (NotFoundError name), w)
    end.

(** [client.list_collections()], as the names of the collections *)
Definition list_collections (c : Client) : M (list str) :=
  fun w => (Ok (map fst (map_to_list (store_of c w))), w).

(** The langchain wrapper around one collection of one client. *)
Record VectorStore : Type := { vs_client : Client; vs_collection : str }.

(** [Chroma(client=..., collection_name=..., embedding_function=...)]: the
    wrapper gets the collection or creates it empty. *)
Definition Chroma (c : Client) (name : str) (_ : Embeddings) : M VectorStore :=
  fun w =>
    let vs := {| vs_client := c; vs_collection := name |} in
    match store_of c w !! name with
    | Some _ => (Ok vs, w)
    | None => (Ok vs, set_store c (<[name := []]> (store_of c w)) w)
    end.

Definition documents (texts : list str) (metas : list Metadata) : list Document :=
  map (fun tm => {| page_content := fst tm; metadata := snd tm |}) (zip texts metas).

(** [Chroma.from_texts(texts=..., metadatas=..., embedding=..., client=...,
    collection_name=...)]: the wrapper as above, then the texts added to what
    the collection holds. *)
Definition from_texts (texts : list str) (metas : list Metadata)
    (e : Embeddings) (c : Client) (name : str) : M VectorStore :=
  (vs <- Chroma c name e ;;
   fun w =>
     let old := default [] (store_of c w !! name) in
     (Ok vs, set_store c (<[name := old ++ documents texts metas]> (store_of c w)) w))%py.

End Chroma.

(** ** rag_chain.py: configuration and external collaborators *)

(** The module-level settings read from the environment. *)
Record Config : Type := {
  CHUNK_SIZE : nat;
  CHUNK_OVERLAP : nat;
  TOP_K : nat;
  EMBEDDING_MODEL : str;
  USE_CLOUD_CHROMA : bool;
  FILES_ROOT : str
}.

Definition default_config : Config := {|
  CHUNK_SIZE := 1200;
  CHUNK_OVERLAP := 200;
  TOP_K := 5;
  EMBEDDING_MODEL := py "sentence-transformers/all-MiniLM-L6-v2";
  USE_CLOUD_CHROMA := true;
  FILES_ROOT := py "storage/files"
|}.

(** The library calls whose code is outside the repository. *)
Record Externals : Type := {
  (** [RecursiveCharacterTextSplitter(chunk_size, chunk_overlap).split_text] *)
  split_text : nat -> nat -> str -> list str;
  (** [PdfReader(path)] and the page texts joined by newlines; a malformed
      file makes it raise *)
  pdf_text : str -> result str;
  (** decoding as UTF-8 with [errors="ignore"] *)
  txt_text : str -> str;
  (** the nearest-neighbour search of the store over one collection's
      documents: query, [k], documents *)
  similarity_search : str -> nat -> list Document -> result (list Document)
}.

(** An uploaded file: its name and its bytes. *)
Record UploadedFile : Type := { name : str; data : str }.

(** The retriever [vectorstore.as_retriever(search_kwargs={"k": ...})]. *)
Record Retriever : Type := { r_store : Chroma.VectorStore; r_k : nat }.

(** The dictionary [check_course_status] returns; a key that a branch leaves
    out is [None]. *)
Record Status : Type := {
  st_course_name : str;
  st_collection_name : option str;
  st_embedding_model : option str;
  st_using_cloud : option bool;
  st_has_vectorstore : bool;
  st_document_count : nat;
  st_is_ready : bool;
  st_error : option str
}.

(** [os.path.join(a, b)] on POSIX *)
Definition path_join (a b : str) : str :=
  if Str.startswith (py "/") b then b
  else match a with
       | [] => b
       | _ => if Str.endswith (py "/") a then a ++ b else a ++ py "/" ++ b
       end.

(** ** rag_chain.py: indexing, retrieval, status *)

Module RagChain.

Import Naming.

Section WithEnvironment.

Variable cfg : Config.
Variable ext : Externals.

Local Open Scope py_scope.

Definition _split (text : str) : list str :=
  split_text ext (CHUNK_SIZE cfg) (CHUNK_OVERLAP cfg) text.

Definition _read_pdf (bytes : str) : result str := pdf_text ext bytes.

Definition _read_txt (bytes : str) : str := txt_text ext bytes.

Definition _get_embeddings : M Embeddings :=
  fun w =>
    if embeddings_up w then (Ok HuggingFaceEmbeddings, w)
    else (Raise ModelLoadError, w).

Definition _get_chromadb_client : M Client :=
  if USE_CLOUD_CHROMA cfg then
    try Chroma.cloud_client except (fun _ => Chroma.persistent_client)
  else Chroma.persistent_client.

(** [vectorstore.similarity_search(query, k=k)] *)
Definition vs_similarity_search (vs : Chroma.VectorStore) (query : str) (k : nat)
    : M (list Document) :=
  fun w =>
    match Chroma.store_of (Chroma.vs_client vs) w !! Chroma.vs_collection vs with
    | Some docs => (similarity_search ext query k docs, w)
    | None => (Raise (NotFoundError (Chroma.vs_collection vs)), w)
    end.

Definition _get_vectorstore (course_name : str) : M (option Chroma.VectorStore) :=
  try
    (client <- _get_chromadb_client ;;
     let collection_name := _get_collection_name course_name in
     try
       (collection <- Chroma.get_collection client collection_name ;;
        emb <- _get_embeddings ;;
        vectorstore <- Chroma.Chroma client collection_name emb ;;
        try
          (test_results <- vs_similarity_search vectorstore (py "test") 1 ;;
           ret (if 0 <? length test_results then Some vectorstore else None))
        except (fun _ => ret None))
     except (fun _ => ret None))
  except (fun _ => ret None).

Definition _get_relevant_documents (course_name query : str) (k : nat)
    : M (list Document) :=
  vectorstore <- _get_vectorstore course_name ;;
  match vectorstore with
  | None => ret []
  | Some vs =>
      try vs_similarity_search vs query k except (fun _ => ret [])
  end.

(** Is the chunk kept: [if chunk.strip()] *)
Definition nonblank (chunk : str) : bool :=
  match Str.strip chunk with
  | [] => false
  | _ => true
  end.

(** The text of one file, [None] for an extension that is skipped. *)
Definition extract (course_slug : str) (f : UploadedFile) : result (option str) :=
  let dest := path_join (path_join (FILES_ROOT cfg) course_slug) (name f) in
  if Str.endswith (py ".pdf") (Str.lower dest) then
    match _read_pdf (data f) with
    | Ok raw => Ok (Some raw)
    | Raise e => Raise e
    end
  else if Str.endswith (py ".txt") (Str.lower dest) then
    Ok (Some (_read_txt (data f)))
  else Ok None.

(** The [for] loop over the uploaded files, from the lists accumulated so
    far. *)
Fixpoint collect (course_name course_slug : str) (files : list UploadedFile)
    (texts : list str) (metas : list Metadata)
    : result (list str * list Metadata) :=
  match files with
  | [] => Ok (texts, metas)
  | f :: rest =>
      match extract course_slug f with
      | Raise e => Raise e
      | Ok None => collect course_name course_slug rest texts metas
      | Ok (Some raw) =>
          let kept := List.filter nonblank (_split raw) in
          collect course_name course_slug rest
            (texts ++ kept)
            (metas ++ map (fun _ => {| source := name f; course := course_name |}) kept)
      end
  end.

Definition _clear_course_cache (course_name : str) : M unit := ret tt.

Definition save_upload_and_index (course_name : str) (uploaded_files : list UploadedFile)
    : M nat :=
  let course_slug := _slugify course_name in
  acc <- lift (collect course_name course_slug uploaded_files [] []) ;;
  let '(texts, metas) := acc in
  match texts with
  | [] => ret 0
  | _ =>
      try
        (client <- _get_chromadb_client ;;
         let collection_name := _get_collection_name course_name in
         _ <- (try Chroma.delete_collection client collection_name
               except (fun _ => ret tt)) ;;
         emb <- _get_embeddings ;;
         vectorstore <- Chroma.from_texts texts metas emb client collection_name ;;
         _ <- _clear_course_cache course_name ;;
         ret (length texts))
      except (fun _ => ret 0)
  end.

Definition get_retriever (course_name : str) : M Retriever :=
  vectorstore <- _get_vectorstore course_name ;;
  match vectorstore with
  | None =>
      raise (ValueError (py "No vector store found for course: " ++ course_name
                         ++ py ". Please upload files first."))
  | Some vs => ret {| r_store := vs; r_k := TOP_K cfg |}
  end.

Definition check_course_status (course_name : str) : M Status :=
  try
    (client <- _get_chromadb_client ;;
     let collection_name := _get_collection_name course_name in
     let status := {|
       st_course_name := course_name;
       st_collection_name := Some collection_name;
       st_embedding_model := Some (EMBEDDING_MODEL cfg);
       st_using_cloud := Some (USE_CLOUD_CHROMA cfg);
       st_has_vectorstore := false;
       st_document_count := 0;
       st_is_ready := false;
       st_error := None |} in
     try
       (collection <- Chroma.get_collection client collection_name ;;
        doc_count <- Chroma.count client collection ;;
        ret {|
          st_course_name := st_course_name status;
          st_collection_name := st_collection_name status;
          st_embedding_model := st_embedding_model status;
          st_using_cloud := st_using_cloud status;
          st_has_vectorstore := true;
          st_document_count := doc_count;
          st_is_ready := 0 <? doc_count;
          st_error := None |})
     except (fun _ => ret status))
  except (fun e =>
    ret {|
      st_course_name := course_name;
      st_collection_name := None;
      st_embedding_model := None;
      st_using_cloud := None;
      st_has_vectorstore := false;
      st_document_count := 0;
      st_is_ready := false;
      st_error := Some (exn_str e) |}).

Definition list_all_courses : M (list str) :=
  try
    (client <- _get_chromadb_client ;;
     collections <- Chroma.list_collections client ;;
     ret (map display_name
            (List.filter (Str.startswith (py "course-")) collections)))
  except (fun _ => ret []).

Definition delete_course (course_name : str) : M bool :=
  try
    (client <- _get_chromadb_client ;;
     let collection_name := _get_collection_name course_name in
     _ <- (try Chroma.delete_collection client collection_name
           except (fun _ => ret tt)) ;;
     _ <- _clear_course_cache course_name ;;
     ret true)
  except (fun _ => ret false).

End WithEnvironment.

End RagChain.

(** ** What the process sees of the stores; sample environments *)

(** The client the process obtains in world [w]. *)
Definition connected (cfg : Config) (w : World) : result Client :=
  fst (RagChain._get_chromadb_client cfg w).

(** The collection of a course in the store the process is connected to. *)
Definition collection_of (cfg : Config) (course_name : str) (w : World)
    : option (list Document) :=
  match connected cfg w with
  | Ok c => Chroma.store_of c w !! Naming._get_collection_name course_name
  | Raise _ => None
  end.

(** The passages a computation returned; none when it raised. *)
Definition returned {A} (r : result (list A) * World) : list A :=
  match fst r with
  | Ok l => l
  | Raise _ => []
  end.

(** A file that adds nothing to the chunk list: its extension is skipped, or
    every chunk of its text is blank. *)
Definition contributes_nothing (cfg : Config) (ext : Externals)
    (course_slug : str) (f : UploadedFile) : Prop :=
  match RagChain.extract cfg ext course_slug f with
  | Ok None => True
  | Ok (Some raw) => List.filter RagChain.nonblank (RagChain._split cfg ext raw) = []
  | Raise _ => False
  end.

(** The search returns documents of the collection it was run on. *)
Definition search_sound (ext : Externals) : Prop :=
  forall q k docs r, similarity_search ext q k docs = Ok r ->
  forall d, In d r -> In d docs.

(** A world with every service up and no collection anywhere. *)
Definition fresh_world : World := {|
  cloud_up := true; local_up := true; embeddings_up := true;
  cloud_store := ∅; local_store := ∅
|}.

(** An environment to run examples in: windows of fixed stride as splitter,
    files whose bytes are their text, a search that returns the first [k]
    stored documents. *)
Definition sample_externals : Externals := {|
  split_text := fun size overlap text => Chunker.chunk text size overlap;
  pdf_text := fun bytes => Ok bytes;
  txt_text := fun bytes => bytes;
  similarity_search := fun _ k docs => Ok (take k docs)
|}.

Definition old_passage : Document := {|
  page_content := py "Newton's laws state that force equals mass times acceleration.";
  metadata := {| source := py "notes.txt"; course := py "Physics" |}
|}.

(** A world in which the course "Physics" was indexed from notes.txt. *)
Definition physics_world : World := {|
  cloud_up := true; local_up := true; embeddings_up := true;
  cloud_store := {[ py "course-physics" := [old_passage] ]};
  local_store := ∅
|}.

(** A world in which the collection of "Physics" exists and is empty. *)
Definition hollow_world : World := {|
  cloud_up := true; local_up := true; embeddings_up := true;
  cloud_store := {[ py "course-physics" := [] ]};
  local_store := ∅
|}.

(** A second upload made of one image only. *)
Definition image_batch : list UploadedFile :=
  [ {| name := py "diagram.png"; data := py "not a text" |} ].

(** A second upload made of one text file. *)
Definition text_batch : list UploadedFile :=
  [ {| name := py "optics.txt"; data := py "Light bends at a boundary." |} ].

(** ** rag_chain.py: diagnostics; app.py: the context block *)

(** [client.heartbeat()] *)
Definition heartbeat (c : Client) : M unit :=
  fun w =>
    if match c with CloudClient => cloud_up w | PersistentClient => local_up w end
    then (Ok tt, w) else (Raise ConnectionError, w).

(** The dictionary [get_chromadb_info] returns; a key that a branch leaves
    out is [None]. *)
Record ChromaInfo : Type := {
  ci_connected : bool;
  ci_using_cloud : bool;
  ci_database : option str;
  ci_total_collections : option nat;
  ci_collections : option (list str);
  ci_embedding_model : option str;
  ci_error : option str
}.

(** [sep.join(parts)] *)
Fixpoint str_join (sep : str) (parts : list str) : str :=
  match parts with
  | [] => []
  | p :: rest => match rest with [] => p | _ => p ++ sep ++ str_join sep rest end
  end.

Definition newline : ascii := ascii_of_nat 10.

Module Diagnostics.

Import Naming.

Section WithEnvironment.

Variable cfg : Config.
Variable ext : Externals.
(** The module-level setting [CHROMADB_DATABASE]. *)
Variable CHROMADB_DATABASE : str.

Local Open Scope py_scope.

Definition get_chromadb_info : M ChromaInfo :=
  try
    (client <- RagChain._get_chromadb_client cfg ;;
     collections <- Chroma.list_collections client ;;
     ret {|
       ci_connected := true;
       ci_using_cloud := USE_CLOUD_CHROMA cfg;
       ci_database :=
         Some (if USE_CLOUD_CHROMA cfg then CHROMADB_DATABASE else py "Local");
       ci_total_collections := Some (length collections);
       ci_collections := Some collections;
       ci_embedding_model := Some (EMBEDDING_MODEL cfg);
       ci_error := None |})
  except (fun e =>
    ret {|
      ci_connected := false;
      ci_using_cloud := USE_CLOUD_CHROMA cfg;
      ci_database := None;
      ci_total_collections := None;
      ci_collections := None;
      ci_embedding_model := None;
      ci_error := Some (exn_str e) |}).

(** The flag and the message of [test_chromadb_connection]; the message
    without its leading symbol. *)
Definition test_chromadb_connection : M (bool * str) :=
  try
    (client <- RagChain._get_chromadb_client cfg ;;
     _ <- heartbeat client ;;
     ret (true, py "ChromaDB connection successful"))
  except (fun e => ret (false, py "ChromaDB connection failed: " ++ exn_str e)).

(** app.py: the loop of [build_context_block] over the retrieved documents;
    [seen] holds the keys (source, first 80 characters) met so far. *)
Fixpoint format_docs (seen : gset (str * str)) (docs : list Document) : list str :=
  match docs with
  | [] => []
  | d :: rest =>
      let title := source (metadata d) in
      let key := (title, take 80 (page_content d)) in
      if bool_decide (key ∈ seen) then format_docs seen rest
      else (py "[Source: " ++ title ++ py "]" ++ newline :: page_content d)
             :: format_docs ({[key]} ∪ seen) rest
  end.

Definition build_context_block (course_name user_query : str) (k : nat)
    : M (str * list Document) :=
  try
    (docs <- RagChain._get_relevant_documents cfg ext course_name user_query k ;;
     match docs with
     | [] => ret ([], [])
     | _ => ret (str_join [newline; newline] (format_docs ∅ docs), docs)
     end)
  except (fun _ => ret ([], [])).

End WithEnvironment.

End Diagnostics.

(** The key under which [build_context_block] remembers a document. *)
Definition doc_key (d : Document) : str * str :=
  (source (metadata d), take 80 (page_content d)).

(** The passages one file of a batch contributes: the non-blank chunks of
    its text under its name, nothing for a skipped extension. *)
Definition passages_of (cfg : Config) (ext : Externals)
    (course_name : str) (f : UploadedFile) : list Document :=
  match RagChain.extract cfg ext (Naming._slugify course_name) f with
  | Ok (Some raw) =>
      map (fun chunk =>
             {| page_content := chunk;
                metadata := {| source := name f; course := course_name |} |})
          (List.filter RagChain.nonblank (RagChain._split cfg ext raw))
  | _ => []
  end.

(** Every file of the batch can be read. *)
Definition readable (cfg : Config) (ext : Externals)
    (course_name : str) (files : list UploadedFile) : Prop :=
  Forall (fun f => exists o,
            RagChain.extract cfg ext (Naming._slugify course_name) f = Ok o) files.

(** A world in which the remote service is down and the local store holds
    the course "Physics". *)
Definition fallback_world : World := {|
  cloud_up := false; local_up := true; embeddings_up := true;
  cloud_store := ∅;
  local_store := {[ py "course-physics" := [old_passage] ]}
|}.

(** A world with no backend at all. *)
Definition offline_world : World := {|
  cloud_up := false; local_up := false; embeddings_up := true;
  cloud_store := ∅; local_store := ∅
|}.

(** The world of "Physics" with the embedding model unavailable. *)
Definition no_model_world : World := {|
  cloud_up := true; local_up := true; embeddings_up := false;
  cloud_store := {[ py "course-physics" := [old_passage] ]};
  local_store := ∅
|}.

(** A batch with a PDF that the reader rejects. *)
Definition broken_reader : Externals := {|
  split_text := split_text sample_externals;
  pdf_text := fun _ => Raise (ExternalError (py "EOF marker not found"));
  txt_text := txt_text sample_externals;
  similarity_search := similarity_search sample_externals
|}.

Definition mixed_batch : list UploadedFile :=
  [ {| name := py "optics.txt"; data := py "Light bends at a boundary." |};
    {| name := py "scan.PDF"; data := py "%PDF-1.7" |} ].

(** ** cache_utils.py: SmartCache

    A Python [dict] with string keys is a list of pairs in insertion order:
    assigning to a present key keeps its place, a new key goes last.  Clock
    readings ([time.time()]) and times to live are numbers of one unit of
    time, and every reading is an argument of the method that takes it. *)

Module SmartCacheModel.

Definition dict (A : Type) : Type := list (str * A).

Section Dict.

Context {A : Type}.

(** [d.get(k)] *)
Fixpoint d_get (k : str) (d : dict A) : option A :=
  match d with
  | [] => None
  | (k', v) :: r => if decide (k = k') then Some v else d_get k r
  end.

(** [k in d] *)
Definition d_mem (k : str) (d : dict A) : bool :=
  match d_get k d with
  | Some _ => true
  | None => false
  end.

(** [d[k] = v] *)
Fixpoint d_set (k : str) (v : A) (d : dict A) : dict A :=
  match d with
  | [] => [(k, v)]
  | (k', v') :: r => if decide (k = k') then (k, v) :: r else (k', v') :: d_set k v r
  end.

(** [d.pop(k, None)] *)
Fixpoint d_pop (k : str) (d : dict A) : dict A :=
  match d with
  | [] => []
  | (k', v') :: r => if decide (k = k') then r else (k', v') :: d_pop k r
  end.

(** [d.keys()] *)
Definition d_keys (d : dict A) : list str := map fst d.

End Dict.

(** [min(d.keys(), key=lambda k: d[k])] from a first candidate: the first
    key with the least value. *)
Fixpoint argmin (best : str) (least : Z) (d : dict Z) : str :=
  match d with
  | [] => best
  | (k, t) :: r => if (t <? least)%Z then argmin k t r else argmin best least r
  end.

Section Cache.

Variable V : Type.

Record SmartCache : Type := {
  max_size : Z;
  default_ttl : Z;
  cache : dict V;
  access_times : dict Z;
  creation_times : dict Z
}.

(** [SmartCache(max_size, default_ttl)] *)
Definition __init__ (max_size default_ttl : Z) : SmartCache := {|
  max_size := max_size;
  default_ttl := default_ttl;
  cache := [];
  access_times := [];
  creation_times := []
|}.

(** [_is_expired(key, ttl)], the clock reading [now] *)
Definition _is_expired (key : str) (ttl : option Z) (now : Z) (c : SmartCache) : bool :=
  match d_get key (creation_times c) with
  | None => true
  | Some created =>
      let age := (now - created)%Z in
      let max_age := match ttl with Some t => t | None => default_ttl c end in
      (max_age <? age)%Z
  end.

Definition _remove_key (key : str) (c : SmartCache) : SmartCache := {|
  max_size := max_size c;
  default_ttl := default_ttl c;
  cache := d_pop key (cache c);
  access_times := d_pop key (access_times c);
  creation_times := d_pop key (creation_times c)
|}.

Definition _evict_lru (c : SmartCache) : SmartCache :=
  match access_times c with
  | [] => c
  | (k, t) :: r => _remove_key (argmin k t r) c
  end.

(** [get(key, ttl)]: [now] is the reading of the expiry test, [touched] the
    later one written as access time. *)
Definition get (key : str) (ttl : option Z) (now touched : Z) (c : SmartCache)
    : option V * SmartCache :=
  if d_mem key (cache c) && negb (_is_expired key ttl now c) then
    (d_get key (cache c),
     {| max_size := max_size c;
        default_ttl := default_ttl c;
        cache := cache c;
        access_times := d_set key touched (access_times c);
        creation_times := creation_times c |})
  else if d_mem key (cache c) then (None, _remove_key key c)
  else (None, c).

(** The loop [while len(self.cache) >= self.max_size: self._evict_lru()];
    [None] when [fuel] rounds do not end it. *)
Fixpoint make_room (fuel : nat) (c : SmartCache) : option SmartCache :=
  match fuel with
  | 0 => None
  | S fuel' =>
      if (max_size c <=? Z.of_nat (length (cache c)))%Z
      then make_room fuel' (_evict_lru c)
      else Some c
  end.

(** [set(key, value)], the clock read once after the loop *)
Definition set (fuel : nat) (key : str) (value : V) (now : Z) (c : SmartCache)
    : option SmartCache :=
  match make_room fuel c with
  | None => None
  | Some c' =>
      Some {| max_size := max_size c';
              default_ttl := default_ttl c';
              cache := d_set key value (cache c');
              access_times := d_set key now (access_times c');
              creation_times := d_set key now (creation_times c') |}
  end.

Definition clear (c : SmartCache) : SmartCache := {|
  max_size := max_size c;
  default_ttl := default_ttl c;
  cache := [];
  access_times := [];
  creation_times := []
|}.

(** The three dictionaries hold the same keys, each once. *)
Definition consistent (c : SmartCache) : Prop :=
  d_keys (access_times c) = d_keys (cache c)
  /\ d_keys (creation_times c) = d_keys (cache c)
  /\ NoDup (d_keys (cache c)).

(** The caches a program can build. *)
Inductive built : SmartCache -> Prop :=
| built_init (m t : Z) : built (__init__ m t)
| built_get (key : str) (ttl : option Z) (now touched : Z) (c : SmartCache) :
    built c -> built (snd (get key ttl now touched c))
| built_set (fuel : nat) (key : str) (value : V) (now : Z) (c c' : SmartCache) :
    built c -> set fuel key value now c = Some c' -> built c'
| built_clear (c : SmartCache) : built c -> built (clear c)
| built_remove (key : str) (c : SmartCache) : built c -> built (_remove_key key c)
| built_evict (c : SmartCache) : built c -> built (_evict_lru c).

End Cache.

Arguments max_size {V} _.
Arguments default_ttl {V} _.
Arguments cache {V} _.
Arguments access_times {V} _.
Arguments creation_times {V} _.
Arguments __init__ {V} _ _.
Arguments _is_expired {V} _ _ _ _.
Arguments _remove_key {V} _ _.
Arguments _evict_lru {V} _.
Arguments get {V} _ _ _ _ _.
Arguments make_room {V} _ _.
Arguments set {V} _ _ _ _ _.
Arguments clear {V} _.
Arguments consistent {V} _.
Arguments built {V} _.

End SmartCacheModel.

(** * Properties *)

(** ** Characters *)

Module CharFacts.

Import Char.

Ltac all_chars c := destruct c as [[] [] [] [] [] [] [] []].

Lemma alnum_lower (c : ascii) : alnum c = true -> Char.lower c = c.
Proof. all_chars c; vm_compute; congruence. Qed.

Lemma alnum_not_hyphen (c : ascii) : alnum c = true -> is_hyphen c = false.
Proof. all_chars c; vm_compute; congruence. Qed.

Lemma hyphen_not_alnum (c : ascii) : is_hyphen c = true -> alnum c = false.
Proof. all_chars c; vm_compute; congruence. Qed.

Lemma is_hyphen_eq (c : ascii) : is_hyphen c = true -> c = hyphen.
Proof. unfold is_hyphen. apply Ascii.eqb_eq. Qed.

Lemma space_lower_not_alnum (c : ascii) : isspace c = true -> alnum (Char.lower c) = false.
Proof. all_chars c; vm_compute; congruence. Qed.

Lemma lower_upper_alnum (c : ascii) : alnum c = true -> Char.lower (Char.upper c) = c.
Proof. all_chars c; vm_compute; congruence. Qed.

Lemma in_hyphen_chars (c : ascii) : existsb (Ascii.eqb c) (py "-") = is_hyphen c.
Proof. unfold is_hyphen, py. simpl. apply orb_false_r. Qed.

End CharFacts.

(** ** Stripping and run replacement *)

Module StrFacts.

Import Char Str Shape CharFacts.

Lemma rstrip_cons (p : ascii -> bool) (c : ascii) (r : str) :
  rstrip p (c :: r) =
    if match rstrip p r with [] => p c | _ => false end then [] else c :: rstrip p r.
Proof. simpl. destruct (rstrip p r); [destruct (p c)|]; reflexivity. Qed.

Lemma lstrip_ext (p q : ascii -> bool) (s : str) :
  (forall c, p c = q c) -> lstrip p s = lstrip q s.
Proof.
  intros E. induction s as [|c r IH]; simpl; [reflexivity|].
  rewrite <- E, IH. reflexivity.
Qed.

Lemma rstrip_ext (p q : ascii -> bool) (s : str) :
  (forall c, p c = q c) -> rstrip p s = rstrip q s.
Proof.
  intros E. induction s as [|c r IH]; simpl; [reflexivity|].
  rewrite <- E, IH. reflexivity.
Qed.

Lemma strip_chars_hyphen (s : str) : strip_chars (py "-") s = strip_by is_hyphen s.
Proof.
  unfold strip_chars, strip_by.
  rewrite (lstrip_ext _ is_hyphen) by apply in_hyphen_chars.
  apply rstrip_ext, in_hyphen_chars.
Qed.

Lemma lstrip_starts (p : ascii -> bool) (s : str) : starts p s = false -> lstrip p s = s.
Proof. destruct s as [|c r]; simpl; [reflexivity|]. intros ->. reflexivity. Qed.

Lemma rstrip_ends (p : ascii -> bool) (s : str) : ends p s = false -> rstrip p s = s.
Proof.
  induction s as [|c r IH]; [reflexivity|].
  intros E. rewrite rstrip_cons. destruct r as [|c' r'].
  - simpl in *. rewrite E. reflexivity.
  - rewrite (IH E). reflexivity.
Qed.

Lemma ends_rstrip (p : ascii -> bool) (s : str) : ends p (rstrip p s) = false.
Proof.
  induction s as [|c r IH]; [reflexivity|].
  simpl. destruct (rstrip p r) as [|c' t] eqn:E.
  - destruct (p c) eqn:Pc; simpl; [reflexivity | exact Pc].
  - exact IH.
Qed.

Lemma rstrip_idem (p : ascii -> bool) (s : str) : rstrip p (rstrip p s) = rstrip p s.
Proof. apply rstrip_ends, ends_rstrip. Qed.

(** No hyphen opens what [sub_runs true] returns. *)
Lemma sub_runs_true_starts (s : str) : starts is_hyphen (sub_runs true s) = false.
Proof.
  induction s as [|c r IH]; [reflexivity|].
  simpl. destruct (alnum c) eqn:A; [|exact IH].
  simpl. apply alnum_not_hyphen, A.
Qed.

Lemma lstrip_sub_runs (s : str) : lstrip is_hyphen (sub_runs false s) = sub_runs true s.
Proof.
  destruct s as [|c r]; [reflexivity|].
  simpl. destruct (alnum c) eqn:A.
  - simpl. rewrite (alnum_not_hyphen c A). reflexivity.
  - simpl. apply lstrip_starts, sub_runs_true_starts.
Qed.

(** Leading white space does not show in the result. *)
Lemma sub_runs_lstrip_space (s : str) :
  sub_runs true (Str.lower (lstrip isspace s)) = sub_runs true (Str.lower s).
Proof.
  induction s as [|c r IH]; [reflexivity|].
  simpl. destruct (isspace c) eqn:S; [|reflexivity].
  rewrite (space_lower_not_alnum c S). exact IH.
Qed.

(** Nor does trailing white space, once trailing hyphens are dropped. *)
Lemma sub_runs_rstrip_space (b : bool) (s : str) :
  rstrip is_hyphen (sub_runs b (Str.lower (rstrip isspace s)))
  = rstrip is_hyphen (sub_runs b (Str.lower s)).
Proof.
  revert b. induction s as [|c r IH]; intros b; [reflexivity|].
  rewrite rstrip_cons.
  destruct (match rstrip isspace r with [] => isspace c | _ => false end) eqn:K.
  - destruct (rstrip isspace r) eqn:E; [|discriminate].
    simpl. rewrite (space_lower_not_alnum c K).
    destruct b.
    + rewrite <- IH. reflexivity.
    + rewrite rstrip_cons, <- IH. reflexivity.
  - simpl. destruct (alnum (Char.lower c)).
    + rewrite !rstrip_cons, IH. reflexivity.
    + destruct b; [apply IH|]. rewrite !rstrip_cons, IH. reflexivity.
Qed.

(** The slug in one pass: runs replaced with no hyphen in front, trailing
    hyphen dropped. *)
Lemma slugify_one_pass (x : str) :
  Naming._slugify x = rstrip is_hyphen (sub_runs true (Str.lower x)).
Proof.
  unfold Naming._slugify, re_sub_non_alnum.
  rewrite strip_chars_hyphen. unfold strip_by at 1.
  rewrite lstrip_sub_runs. unfold Str.strip, strip_by.
  rewrite sub_runs_rstrip_space. apply f_equal, sub_runs_lstrip_space.
Qed.

End StrFacts.

(** ** The slug is the hyphen-joined words of the name *)

Module SlugFacts.

Import Char Str Shape CharFacts StrFacts.

Lemma join_push (c : ascii) (ws : list str) : join (push c ws) = c :: join ws.
Proof. destruct ws as [|w [|w' ws']]; reflexivity. Qed.

Lemma words_nonempty (s : str) : Forall (fun w => w <> []) (words s).
Proof.
  induction s as [|c r IH]; simpl; [constructor|].
  destruct (alnum c); [|exact IH].
  destruct (starts alnum r).
  - destruct (words r) as [|w ws]; simpl.
    + repeat constructor. discriminate.
    + inversion IH; subst. constructor; [discriminate | assumption].
  - constructor; [discriminate | exact IH].
Qed.

Lemma join_nil (ws : list str) : Forall (fun w => w <> []) ws -> join ws = [] -> ws = [].
Proof.
  destruct ws as [|w ws']; [reflexivity|].
  intros F J. inversion F as [|? ? Hw _]; subst.
  simpl in J. destruct ws'; [contradiction|].
  destruct w; [contradiction | discriminate].
Qed.

(** Dropping the trailing hyphen of the replaced text leaves the joined
    words, behind one hyphen when a run opens the text and a word follows. *)
Lemma rstrip_sub_runs_words (b : bool) (s : str) :
  rstrip is_hyphen (sub_runs b s) =
    if negb b && match s with [] => false | c :: _ => negb (alnum c) end
    then match join (words s) with [] => [] | j => hyphen :: j end
    else join (words s).
Proof.
  revert b. induction s as [|c r IH]; intros b.
  - simpl. rewrite andb_false_r. reflexivity.
  - simpl. destruct (alnum c) eqn:A; simpl.
    + rewrite andb_false_r.
      change (rstrip is_hyphen (c :: sub_runs false r)) with
        (match rstrip is_hyphen (sub_runs false r) with
         | [] => if is_hyphen c then [] else [c]
         | t => c :: t
         end).
      rewrite (alnum_not_hyphen c A), (IH false). simpl.
      destruct r as [|c' r']; [reflexivity|].
      cbn [starts]. destruct (alnum c') eqn:A'; cbn [negb].
      * rewrite join_push.
        destruct (join (words (c' :: r'))) eqn:J; [|reflexivity].
        apply join_nil in J; [|apply words_nonempty].
        simpl in J. rewrite A' in J.
        destruct (starts alnum r'), (words r'); discriminate.
      * destruct (join (words (c' :: r'))) eqn:J.
        -- apply join_nil in J; [|apply words_nonempty]. rewrite J. reflexivity.
        -- destruct (words (c' :: r')); [discriminate|]. simpl. rewrite <- J. reflexivity.
    + destruct b; simpl.
      * rewrite (IH true). reflexivity.
      * rewrite (IH true). simpl. destruct (join (words r)); reflexivity.
Qed.

Lemma slugify_words (x : str) : Naming._slugify x = slug_words x.
Proof. rewrite slugify_one_pass. apply (rstrip_sub_runs_words true). Qed.

Lemma slugify_spec (x : str) : Naming._slugify x = slug_spec x.
Proof.
  rewrite slugify_one_pass. unfold slug_spec, strip_by.
  rewrite lstrip_sub_runs. reflexivity.
Qed.

(** The shape of what the replacement returns, and what it lets through
    unchanged. *)
Lemma sub_runs_sep_ok (b : bool) (s : str) : sep_ok b (sub_runs b s) = true.
Proof.
  revert b. induction s as [|c r IH]; intros b; [reflexivity|].
  simpl. destruct (alnum c) eqn:A.
  - simpl. rewrite A. apply IH.
  - destruct b; [apply IH|].
    simpl. apply IH.
Qed.

Lemma sep_ok_rstrip (b : bool) (s : str) :
  sep_ok b s = true -> sep_ok b (rstrip is_hyphen s) = true.
Proof.
  revert b. induction s as [|c r IH]; intros b H; [reflexivity|].
  simpl in H. rewrite rstrip_cons.
  destruct (match rstrip is_hyphen r with [] => is_hyphen c | _ => false end);
    [reflexivity|].
  simpl. destruct (alnum c); [apply IH, H|].
  apply andb_prop in H as [H1 H2]. rewrite H1. apply IH, H2.
Qed.

Lemma sep_ok_lower (b : bool) (s : str) : sep_ok b s = true -> Str.lower s = s.
Proof.
  revert b. induction s as [|c r IH]; intros b H; [reflexivity|].
  simpl in *. destruct (alnum c) eqn:A.
  - rewrite (alnum_lower c A), (IH false H). reflexivity.
  - apply andb_prop in H as [H1 H2]. apply andb_prop in H1 as [H1 _].
    rewrite (is_hyphen_eq c H1), (IH true H2). reflexivity.
Qed.

Lemma sep_ok_sub_runs (b : bool) (s : str) : sep_ok b s = true -> sub_runs b s = s.
Proof.
  revert b. induction s as [|c r IH]; intros b H; [reflexivity|].
  simpl in *. destruct (alnum c) eqn:A.
  - rewrite (IH false H). reflexivity.
  - apply andb_prop in H as [H1 H2]. apply andb_prop in H1 as [H1 Hb].
    destruct b; [discriminate|].
    rewrite (is_hyphen_eq c H1), (IH true H2). reflexivity.
Qed.

Lemma slug_sep_ok (x : str) : sep_ok true (Naming._slugify x) = true.
Proof. rewrite slugify_one_pass. apply sep_ok_rstrip, sub_runs_sep_ok. Qed.

Lemma slugify_fixed (t : str) :
  sep_ok true t = true -> ends is_hyphen t = false -> Naming._slugify t = t.
Proof.
  intros H E. rewrite slugify_one_pass, (sep_ok_lower true t H), (sep_ok_sub_runs true t H).
  apply rstrip_ends, E.
Qed.

Lemma slug_no_trailing_hyphen (x : str) : ends is_hyphen (Naming._slugify x) = false.
Proof. rewrite slugify_one_pass. apply ends_rstrip. Qed.

(** What the displayed name keeps of a slug. *)
Lemma sep_ok_title_lower (b pc : bool) (s : str) :
  sep_ok b s = true -> Str.lower (title_from pc (replace_hyphens s)) = replace_hyphens s.
Proof.
  revert b pc. induction s as [|c r IH]; intros b pc H; [reflexivity|].
  simpl in *. destruct (alnum c) eqn:A.
  - rewrite (alnum_not_hyphen c A), (IH false _ H).
    destruct pc.
    + rewrite !(alnum_lower c A). reflexivity.
    + rewrite (lower_upper_alnum c A). reflexivity.
  - apply andb_prop in H as [H1 H2]. apply andb_prop in H1 as [H1 _].
    rewrite H1, (IH true _ H2). destruct pc; reflexivity.
Qed.

Lemma sep_ok_replace_sub_runs (b : bool) (s : str) :
  sep_ok b s = true -> sub_runs b (replace_hyphens s) = s.
Proof.
  revert b. induction s as [|c r IH]; intros b H; [reflexivity|].
  simpl in *. destruct (alnum c) eqn:A.
  - rewrite (alnum_not_hyphen c A), A, (IH false H). reflexivity.
  - apply andb_prop in H as [H1 H2]. apply andb_prop in H1 as [H1 Hb].
    destruct b; [discriminate|].
    rewrite H1. simpl. rewrite (IH true H2), (is_hyphen_eq c H1). reflexivity.
Qed.

Lemma shape_sep_ok (b : bool) (s : str) :
  forallb slug_char s = true -> no_double_hyphen s = true ->
  (b = true -> starts is_hyphen s = false) -> sep_ok b s = true.
Proof.
  revert b. induction s as [|c r IH]; intros b F N S; [reflexivity|].
  simpl in *. apply andb_prop in F as [Fc F]. apply andb_prop in N as [Nc N].
  destruct (alnum c) eqn:A.
  - apply IH; [assumption | assumption | discriminate].
  - unfold slug_char in Fc. rewrite A in Fc. simpl in Fc. rewrite Fc in *.
    destruct b; [specialize (S eq_refl); discriminate|].
    simpl. apply IH; [assumption | assumption |].
    intros _. simpl in Nc. destruct (starts is_hyphen r); [discriminate | reflexivity].
Qed.

Lemma valid_slug_shape (s : str) :
  valid_slug s = true -> sep_ok true s = true /\ ends is_hyphen s = false.
Proof.
  unfold valid_slug. destruct s as [|c r]; [discriminate|].
  intros H. apply andb_prop in H as [H N]. apply andb_prop in H as [H E].
  apply andb_prop in H as [F S].
  split.
  - apply shape_sep_ok; [assumption | assumption |].
    intros _. destruct (starts is_hyphen (c :: r)); [discriminate | reflexivity].
  - destruct (ends is_hyphen (c :: r)); [discriminate | reflexivity].
Qed.

Lemma display_name_slug (s : str) :
  sep_ok true s = true -> ends is_hyphen s = false ->
  Naming._slugify (Naming.display_name (py "course-" ++ s)) = s.
Proof.
  intros H E. rewrite slugify_one_pass.
  unfold Naming.display_name, title.
  change (drop 7 (py "course-" ++ s)) with s.
  rewrite (sep_ok_title_lower true false s H), (sep_ok_replace_sub_runs true s H).
  apply rstrip_ends, E.
Qed.

End SlugFacts.

(** ** Running the indexing and retrieval code *)

Module RunFacts.

Import Naming.

Lemma store_of_set_store (c : Client) (s : gmap str (list Document)) (w : World) :
  Chroma.store_of c (Chroma.set_store c s w) = s.
Proof. destruct c; reflexivity. Qed.

Lemma embeddings_set_store (c : Client) (s : gmap str (list Document)) (w : World) :
  embeddings_up (Chroma.set_store c s w) = embeddings_up w.
Proof. destruct c; reflexivity. Qed.

Section Run.

Variable cfg : Config.
Variable ext : Externals.

Lemma client_run (w : World) :
  RagChain._get_chromadb_client cfg w = (connected cfg w, w).
Proof.
  unfold connected, RagChain._get_chromadb_client, try_except,
    Chroma.cloud_client, Chroma.persistent_client.
  destruct (USE_CLOUD_CHROMA cfg), (cloud_up w), (local_up w); reflexivity.
Qed.

Lemma connected_set_store (c : Client) (s : gmap str (list Document)) (w : World) :
  connected cfg (Chroma.set_store c s w) = connected cfg w.
Proof.
  unfold connected, RagChain._get_chromadb_client, try_except,
    Chroma.cloud_client, Chroma.persistent_client.
  destruct c; simpl; destruct (USE_CLOUD_CHROMA cfg), (cloud_up w), (local_up w);
    reflexivity.
Qed.

(** The accessor never raises and never changes a store; a handle it returns
    is that of the course's collection, which exists. *)
Lemma vectorstore_run (course_name : str) (w : World) :
  exists o, RagChain._get_vectorstore cfg ext course_name w = (Ok o, w)
  /\ forall vs, o = Some vs ->
       exists c docs, connected cfg w = Ok c
         /\ vs = {| Chroma.vs_client := c;
                    Chroma.vs_collection := _get_collection_name course_name |}
         /\ Chroma.store_of c w !! _get_collection_name course_name = Some docs
         /\ embeddings_up w = true
         /\ exists d ds, similarity_search ext (py "test") 1 docs = Ok (d :: ds).
Proof.
  unfold RagChain._get_vectorstore, try_except, bind. rewrite client_run.
  destruct (connected cfg w) as [c|e] eqn:C; [|eexists; split; [reflexivity|discriminate]].
  unfold Chroma.get_collection.
  destruct (Chroma.store_of c w !! _get_collection_name course_name) as [docs|] eqn:L;
    [|eexists; split; [reflexivity|discriminate]].
  unfold RagChain._get_embeddings.
  destruct (embeddings_up w) eqn:E; [|eexists; split; [reflexivity|discriminate]].
  unfold Chroma.Chroma. rewrite L.
  unfold RagChain.vs_similarity_search. simpl. rewrite L.
  destruct (similarity_search ext (py "test") 1 docs) as [[|d ds]|e] eqn:S;
    simpl; eexists; (split; [reflexivity|]); try discriminate.
  intros vs [= <-]. exists c, docs.
  split; [reflexivity|]. split; [reflexivity|]. split; [exact L|].
  split; [reflexivity|]. exists d, ds. exact S.
Qed.

Lemma vectorstore_missing (course_name : str) (w : World) :
  collection_of cfg course_name w = None ->
  RagChain._get_vectorstore cfg ext course_name w = (Ok None, w).
Proof.
  intros H. destruct (vectorstore_run course_name w) as (o & R & P).
  rewrite R. destruct o as [vs|]; [|reflexivity].
  destruct (P vs eq_refl) as (c & docs & C & _ & L & _).
  unfold collection_of in H. rewrite C, L in H. discriminate.
Qed.

Lemma vectorstore_probe_empty (course_name : str) (w : World) (docs : list Document) :
  collection_of cfg course_name w = Some docs ->
  similarity_search ext (py "test") 1 docs = Ok [] ->
  RagChain._get_vectorstore cfg ext course_name w = (Ok None, w).
Proof.
  intros H S. destruct (vectorstore_run course_name w) as (o & R & P).
  rewrite R. destruct o as [vs|]; [|reflexivity].
  destruct (P vs eq_refl) as (c & docs' & C & _ & L & _ & d & ds & S').
  unfold collection_of in H. rewrite C, L in H. injection H as ->.
  rewrite S in S'. discriminate.
Qed.

(** Retrieval never raises and never changes a store; what it returns is
    empty or the answer of the search over the course's collection. *)
Lemma retrieval_run (course_name query : str) (k : nat) (w : World) :
  exists r, RagChain._get_relevant_documents cfg ext course_name query k w = (Ok r, w)
  /\ (r = [] \/
      exists docs, collection_of cfg course_name w = Some docs
        /\ similarity_search ext query k docs = Ok r).
Proof.
  unfold RagChain._get_relevant_documents, bind.
  destruct (vectorstore_run course_name w) as (o & R & P). rewrite R.
  destruct o as [vs|]; [|exists []; split; [reflexivity | left; reflexivity]].
  destruct (P vs eq_refl) as (c & docs & C & -> & L & _).
  unfold try_except, RagChain.vs_similarity_search. simpl. rewrite L.
  destruct (similarity_search ext query k docs) as [r|e] eqn:S.
  - exists r. split; [reflexivity|]. right. exists docs. split; [|exact S].
    unfold collection_of. rewrite C. exact L.
  - exists []. split; [reflexivity | left; reflexivity].
Qed.

Lemma retrieval_missing (course_name query : str) (k : nat) (w : World) :
  collection_of cfg course_name w = None ->
  RagChain._get_relevant_documents cfg ext course_name query k w = (Ok [], w).
Proof.
  intros H. unfold RagChain._get_relevant_documents, bind.
  rewrite (vectorstore_missing _ _ H). reflexivity.
Qed.

(** The loop over the files. *)
Lemma collect_nothing (course_name slug : str) (files : list UploadedFile)
    (texts : list str) (metas : list Metadata) :
  Forall (contributes_nothing cfg ext slug) files ->
  RagChain.collect cfg ext course_name slug files texts metas = Ok (texts, metas).
Proof.
  intros F. revert texts metas.
  induction F as [|f rest Hf _ IH]; intros texts metas; [reflexivity|].
  simpl. unfold contributes_nothing in Hf.
  destruct (RagChain.extract cfg ext slug f) as [[raw|]|e]; [| |contradiction].
  - rewrite Hf. simpl. rewrite !app_nil_r. apply IH.
  - apply IH.
Qed.

Lemma collect_shape (course_name slug : str) (files : list UploadedFile)
    (texts texts' : list str) (metas metas' : list Metadata) :
  RagChain.collect cfg ext course_name slug files texts metas = Ok (texts', metas') ->
  length texts = length metas ->
  length texts' = length metas'
  /\ forall md, In md metas' -> In md metas \/ In (source md) (map name files).
Proof.
  revert texts metas. induction files as [|f rest IH]; intros texts metas H E.
  - injection H as <- <-. split; [exact E | intros md I; left; exact I].
  - simpl in H. destruct (RagChain.extract cfg ext slug f) as [[raw|]|e]; [| |discriminate].
    + apply IH in H as [H1 H2].
      * split; [exact H1|]. intros md I. destruct (H2 md I) as [I'|I'].
        -- apply in_app_or in I' as [I'|I']; [left; exact I'|].
           right. apply in_map_iff in I' as (x & <- & _). left. reflexivity.
        -- right. right. exact I'.
      * rewrite !length_app, length_map, E. reflexivity.
    + apply IH in H as [H1 H2]; [|exact E].
      split; [exact H1|]. intros md I. destruct (H2 md I) as [I'|I'].
      * left. exact I'.
      * right. right. exact I'.
Qed.

Lemma documents_metadata (texts : list str) (metas : list Metadata) (d : Document) :
  In d (Chroma.documents texts metas) -> In (metadata d) metas.
Proof.
  unfold Chroma.documents. revert metas.
  induction texts as [|t ts IH]; intros [|m ms] I; try contradiction.
  simpl in I. destruct I as [<-|I]; [left; reflexivity|].
  right. apply IH, I.
Qed.

Lemma length_documents (texts : list str) (metas : list Metadata) :
  length texts = length metas ->
  length (Chroma.documents texts metas) = length texts.
Proof.
  unfold Chroma.documents. rewrite length_map. revert metas.
  induction texts as [|t ts IH]; intros [|m ms] E; try discriminate; [reflexivity|].
  simpl. f_equal. apply IH. injection E as E. exact E.
Qed.

Lemma save_empty (course_name : str) (files : list UploadedFile) (w : World)
    (metas : list Metadata) :
  RagChain.collect cfg ext course_name (_slugify course_name) files [] [] = Ok ([], metas) ->
  RagChain.save_upload_and_index cfg ext course_name files w = (Ok 0, w).
Proof.
  intros H. unfold RagChain.save_upload_and_index, bind, lift.
  rewrite H. reflexivity.
Qed.

Lemma save_run (course_name : str) (files : list UploadedFile) (w : World)
    (texts : list str) (metas : list Metadata) (c : Client) :
  RagChain.collect cfg ext course_name (_slugify course_name) files [] [] = Ok (texts, metas) ->
  texts <> [] ->
  connected cfg w = Ok c ->
  embeddings_up w = true ->
  exists w',
    RagChain.save_upload_and_index cfg ext course_name files w = (Ok (length texts), w')
    /\ Chroma.store_of c w' !! _get_collection_name course_name
       = Some (Chroma.documents texts metas)
    /\ (forall other, other <> _get_collection_name course_name ->
        Chroma.store_of c w' !! other = Chroma.store_of c w !! other)
    /\ connected cfg w' = Ok c
    /\ embeddings_up w' = true.
Proof.
  intros H N C E. unfold RagChain.save_upload_and_index, bind, lift.
  rewrite H. destruct texts as [|t ts]; [contradiction|].
  set (texts := t :: ts). set (cn := _get_collection_name course_name).
  unfold try_except at 1. rewrite client_run, C.
  unfold try_except, Chroma.delete_collection, RagChain._get_embeddings,
    Chroma.from_texts, Chroma.Chroma, bind, RagChain._clear_course_cache, ret.
  destruct (Chroma.store_of c w !! cn) as [old|] eqn:L.
  - rewrite embeddings_set_store, E.
    rewrite !store_of_set_store, lookup_delete_eq.
    rewrite !store_of_set_store, lookup_insert_eq. simpl.
    eexists. split; [reflexivity|].
    rewrite store_of_set_store, !connected_set_store, !embeddings_set_store.
    split; [apply lookup_insert_eq|]. split; [|split; assumption].
    intros other O.
    rewrite !lookup_insert_ne, lookup_delete_ne by congruence. reflexivity.
  - rewrite E, L.
    rewrite !store_of_set_store, lookup_insert_eq. simpl.
    eexists. split; [reflexivity|].
    rewrite store_of_set_store, !connected_set_store, !embeddings_set_store.
    split; [apply lookup_insert_eq|]. split; [|split; assumption].
    intros other O.
    rewrite !lookup_insert_ne by congruence. reflexivity.
Qed.

(** The status report. *)
Lemma status_run (course_name : str) (w : World) :
  exists s, RagChain.check_course_status cfg course_name w = (Ok s, w)
  /\ match connected cfg w with
     | Ok c =>
         st_error s = None
         /\ st_collection_name s = Some (_get_collection_name course_name)
         /\ match Chroma.store_of c w !! _get_collection_name course_name with
            | Some docs =>
                st_has_vectorstore s = true
                /\ st_document_count s = length docs
                /\ st_is_ready s = (0 <? length docs)
            | None =>
                st_has_vectorstore s = false
                /\ st_document_count s = 0
                /\ st_is_ready s = false
            end
     | Raise e =>
         st_error s = Some (exn_str e)
         /\ st_has_vectorstore s = false
         /\ st_document_count s = 0
         /\ st_is_ready s = false
     end.
Proof.
  unfold RagChain.check_course_status, try_except, bind. rewrite client_run.
  destruct (connected cfg w) as [c|e].
  - unfold Chroma.get_collection, Chroma.count.
    destruct (Chroma.store_of c w !! _get_collection_name course_name) as [docs|] eqn:L.
    + rewrite L. eexists. split; [reflexivity|]. simpl. auto.
    + eexists. split; [reflexivity|]. simpl. auto.
  - eexists. split; [reflexivity|]. simpl. auto.
Qed.

Lemma delete_missing (course_name : str) (w : World) :
  collection_of cfg course_name w = None ->
  exists b, RagChain.delete_course cfg course_name w = (Ok b, w).
Proof.
  intros H. unfold RagChain.delete_course, try_except, bind. rewrite client_run.
  unfold collection_of in H.
  destruct (connected cfg w) as [c|e]; [|exists false; reflexivity].
  unfold Chroma.delete_collection. rewrite H. exists true. reflexivity.
Qed.

Lemma retriever_missing (course_name : str) (w : World) :
  collection_of cfg course_name w = None ->
  RagChain.get_retriever cfg ext course_name w
  = (Raise (ValueError (py "No vector store found for course: " ++ course_name
                        ++ py ". Please upload files first.")), w).
Proof.
  intros H. unfold RagChain.get_retriever, bind.
  rewrite (vectorstore_missing _ _ H). reflexivity.
Qed.

(** A collection whose name starts with "course-" is listed under its
    display name. *)
Lemma listed_course (w : World) (c : Client) (collection : str) (docs : list Document) :
  connected cfg w = Ok c ->
  Chroma.store_of c w !! collection = Some docs ->
  Str.startswith (py "course-") collection = true ->
  In (display_name collection) (returned (RagChain.list_all_courses cfg w)).
Proof.
  intros C L P. unfold RagChain.list_all_courses, try_except, bind.
  rewrite client_run, C. unfold Chroma.list_collections, returned. simpl.
  apply in_map, filter_In. split; [|exact P].
  apply in_map_iff. exists (collection, docs). split; [reflexivity|].
  apply list_elem_of_In, elem_of_map_to_list, L.
Qed.

End Run.

Lemma sample_search_sound : search_sound sample_externals.
Proof.
  intros q k docs r H d I. simpl in H. injection H as <-.
  apply list_elem_of_In. apply list_elem_of_In in I.
  apply elem_of_take in I as (i & I & _). apply list_elem_of_lookup. eauto.
Qed.

End RunFacts.

(** ** More on slugs: alphabet, length, collisions *)

Module SlugMore.

Import Char Str Shape CharFacts StrFacts SlugFacts.

Lemma lower_lower (c : ascii) : Char.lower (Char.lower c) = Char.lower c.
Proof. all_chars c; vm_compute; reflexivity. Qed.

Lemma lower_idem (s : str) : Str.lower (Str.lower s) = Str.lower s.
Proof.
  unfold Str.lower. rewrite map_map. apply map_ext. intros c. apply lower_lower.
Qed.

Lemma sep_ok_shape (b : bool) (s : str) :
  sep_ok b s = true ->
  forallb slug_char s = true /\ no_double_hyphen s = true
  /\ (b = true -> starts is_hyphen s = false).
Proof.
  revert b. induction s as [|c r IH]; intros b H.
  - repeat split; reflexivity.
  - simpl in H. simpl. unfold slug_char at 1. destruct (alnum c) eqn:A.
    + destruct (IH false H) as (F & N & _).
      rewrite F, N, (alnum_not_hyphen c A). repeat split; reflexivity.
    + apply andb_prop in H as [H1 H2]. apply andb_prop in H1 as [H1 Hb].
      destruct (IH true H2) as (F & N & S).
      rewrite F, N, H1, (S eq_refl). split; [reflexivity|]. split; [reflexivity|].
      intros ->. discriminate.
Qed.

Lemma slug_valid (x : str) :
  Naming._slugify x = [] \/ valid_slug (Naming._slugify x) = true.
Proof.
  pose proof (slug_sep_ok x) as H. pose proof (slug_no_trailing_hyphen x) as E.
  destruct (Naming._slugify x) as [|c r] eqn:S; [left; reflexivity|].
  right. destruct (sep_ok_shape true _ H) as (F & N & St).
  unfold valid_slug. rewrite F, N, E, (St eq_refl). reflexivity.
Qed.

Lemma slug_of_lower (x : str) : Naming._slugify (Str.lower x) = Naming._slugify x.
Proof. rewrite !slugify_one_pass, lower_idem. reflexivity. Qed.

Lemma slug_of_strip (x : str) : Naming._slugify (Str.strip x) = Naming._slugify x.
Proof.
  rewrite !slugify_one_pass. unfold Str.strip, strip_by.
  rewrite sub_runs_rstrip_space, sub_runs_lstrip_space. reflexivity.
Qed.

(** The words of a text hold an alphanumeric character each time the text
    does. *)
Lemma words_nil (s : str) : words s = [] <-> forallb (fun c => negb (alnum c)) s = true.
Proof.
  induction s as [|c r IH]; [split; reflexivity|].
  simpl. destruct (alnum c) eqn:A; simpl.
  - split; [|discriminate].
    destruct (starts alnum r); [destruct (words r)|]; discriminate.
  - exact IH.
Qed.

Lemma join_nil_iff (s : str) : join (words s) = [] <-> words s = [].
Proof.
  split.
  - apply join_nil, words_nonempty.
  - intros ->. reflexivity.
Qed.

Lemma words_alnum (s : str) : Forall (fun w => forallb alnum w = true) (words s).
Proof.
  induction s as [|c r IH]; simpl; [constructor|].
  destruct (alnum c) eqn:A; [|exact IH].
  destruct (starts alnum r).
  - destruct (words r) as [|w ws]; simpl.
    + repeat constructor. simpl. rewrite A. reflexivity.
    + inversion IH; subst. constructor; [|assumption].
      simpl. rewrite A. assumption.
  - constructor; [|exact IH]. simpl. rewrite A. reflexivity.
Qed.

(** A word in front of a text that does not go on with a word character is
    the first word of the whole. *)
Lemma words_app (w t : str) :
  w <> [] -> forallb alnum w = true -> starts alnum t = false ->
  words (w ++ t) = w :: words t.
Proof.
  induction w as [|c w' IH]; intros N A S; [contradiction|].
  simpl in A. apply andb_prop in A as [Ac A].
  destruct w' as [|c' w''].
  - simpl. rewrite Ac, S. reflexivity.
  - change (words ((c :: c' :: w'') ++ t))
      with (if alnum c
            then if starts alnum ((c' :: w'') ++ t)
                 then push c (words ((c' :: w'') ++ t))
                 else [c] :: words ((c' :: w'') ++ t)
            else words ((c' :: w'') ++ t)).
    rewrite Ac. simpl in A. apply andb_prop in A as [Ac' A'].
    simpl starts. rewrite Ac'.
    rewrite IH; [reflexivity | discriminate | simpl; rewrite Ac', A'; reflexivity | exact S].
Qed.

Lemma words_join (ws : list str) :
  Forall (fun w => w <> []) ws -> Forall (fun w => forallb alnum w = true) ws ->
  words (join ws) = ws.
Proof.
  induction ws as [|w ws' IH]; intros N A; [reflexivity|].
  inversion N as [|? ? Nw N']; subst. inversion A as [|? ? Aw A']; subst.
  simpl. destruct ws' as [|w' ws''].
  - rewrite <- (app_nil_r w) at 1. rewrite words_app by (assumption || reflexivity).
    reflexivity.
  - rewrite words_app; [|assumption|assumption|reflexivity].
    f_equal. change (words (hyphen :: join (w' :: ws''))) with (words (join (w' :: ws''))).
    apply IH; assumption.
Qed.

Lemma words_of_slug (x : str) : words (Naming._slugify x) = words (Str.lower x).
Proof.
  rewrite slugify_words. apply words_join; [apply words_nonempty | apply words_alnum].
Qed.

Lemma collection_name_untruncated (course_name : str) :
  length (Naming._slugify course_name) <= 56 ->
  Naming._get_collection_name course_name = py "course-" ++ Naming._slugify course_name.
Proof.
  intros L. unfold Naming._get_collection_name.
  destruct (63 <? length (py "course-" ++ Naming._slugify course_name)) eqn:K;
    [|reflexivity].
  apply Nat.ltb_lt in K. rewrite length_app in K. simpl in K. lia.
Qed.

Lemma name_leads_back (course_name : str) :
  length (Naming._slugify course_name) <= 56 ->
  Naming._get_collection_name
    (Naming.display_name (Naming._get_collection_name course_name))
  = Naming._get_collection_name course_name.
Proof.
  intros L. rewrite (collection_name_untruncated course_name L).
  pose proof (display_name_slug (Naming._slugify course_name)
                (slug_sep_ok course_name) (slug_no_trailing_hyphen course_name)) as R.
  unfold Naming._get_collection_name at 1. rewrite R.
  destruct (63 <? length (py "course-" ++ Naming._slugify course_name)) eqn:K;
    [|reflexivity].
  apply Nat.ltb_lt in K. rewrite length_app in K. simpl in K. lia.
Qed.

Lemma collection_name_prefix (course_name : str) :
  Str.startswith (py "course-") (Naming._get_collection_name course_name) = true.
Proof.
  unfold Naming._get_collection_name.
  destruct (63 <? length (py "course-" ++ Naming._slugify course_name)); reflexivity.
Qed.

End SlugMore.

(** ** Indexing, deletion and status, run on any world *)

Module RunMore.

Import Naming RunFacts.

Lemma set_store_twice (c : Client) (s s' : gmap str (list Document)) (w : World) :
  Chroma.set_store c s (Chroma.set_store c s' w) = Chroma.set_store c s w.
Proof. destruct c; reflexivity. Qed.

Lemma set_store_same (c : Client) (w : World) :
  Chroma.set_store c (Chroma.store_of c w) w = w.
Proof. destruct c, w; reflexivity. Qed.

Lemma store_of_other (c c' : Client) (s : gmap str (list Document)) (w : World) :
  c' <> c -> Chroma.store_of c' (Chroma.set_store c s w) = Chroma.store_of c' w.
Proof. destruct c, c'; intros N; try reflexivity; contradiction. Qed.

Lemma documents_app (t t2 : list str) (m m2 : list Metadata) :
  length t = length m ->
  Chroma.documents (t ++ t2) (m ++ m2) = Chroma.documents t m ++ Chroma.documents t2 m2.
Proof.
  intros E. unfold Chroma.documents.
  rewrite <- map_app. f_equal. apply zip_with_app, E.
Qed.

Lemma documents_const (kept : list str) (md : Metadata) :
  Chroma.documents kept (map (fun _ => md) kept)
  = map (fun chunk => {| page_content := chunk; metadata := md |}) kept.
Proof.
  unfold Chroma.documents. induction kept as [|k ks IH]; [reflexivity|].
  simpl. f_equal. exact IH.
Qed.

Section Run.

Variable cfg : Config.
Variable ext : Externals.


Lemma collect_readable (course_name : str) (files : list UploadedFile)
    (texts : list str) (metas : list Metadata) :
  readable cfg ext course_name files ->
  exists texts' metas',
    RagChain.collect cfg ext course_name (_slugify course_name) files texts metas
    = Ok (texts', metas').
Proof.
  intros R. revert texts metas.
  induction R as [|f rest (o & Hf) _ IH]; intros texts metas.
  - exists texts, metas. reflexivity.
  - simpl. rewrite Hf. destruct o as [raw|]; apply IH.
Qed.

Lemma collect_raises (course_name : str) (files : list UploadedFile)
    (texts : list str) (metas : list Metadata) (f : UploadedFile) (e : exn) :
  In f files ->
  RagChain.extract cfg ext (_slugify course_name) f = Raise e ->
  exists e',
    RagChain.collect cfg ext course_name (_slugify course_name) files texts metas
    = Raise e'.
Proof.
  revert texts metas. induction files as [|g rest IH]; intros texts metas I H;
    [contradiction|].
  simpl. destruct I as [->|I].
  - rewrite H. exists e. reflexivity.
  - destruct (RagChain.extract cfg ext (_slugify course_name) g) as [[raw|]|e0];
      [apply IH; assumption | apply IH; assumption | exists e0; reflexivity].
Qed.

Lemma collect_documents (course_name : str) (files : list UploadedFile)
    (texts texts' : list str) (metas metas' : list Metadata) :
  RagChain.collect cfg ext course_name (_slugify course_name) files texts metas
  = Ok (texts', metas') ->
  length texts = length metas ->
  Chroma.documents texts' metas'
  = Chroma.documents texts metas ++ flat_map (passages_of cfg ext course_name) files.
Proof.
  revert texts metas. induction files as [|f rest IH]; intros texts metas H E.
  - injection H as <- <-. simpl. rewrite app_nil_r. reflexivity.
  - simpl in H. simpl. unfold passages_of at 1.
    destruct (RagChain.extract cfg ext (_slugify course_name) f) as [[raw|]|e];
      [| |discriminate].
    + rewrite (IH _ _ H) by (rewrite !length_app, length_map, E; reflexivity).
      rewrite (documents_app _ _ _ _ E), documents_const, <- app_assoc. reflexivity.
    + apply (IH _ _ H E).
Qed.

(** The three outcomes of an upload once the files have been read. *)
Lemma save_exact (course_name : str) (files : list UploadedFile) (w : World)
    (texts : list str) (metas : list Metadata) (c : Client) :
  RagChain.collect cfg ext course_name (_slugify course_name) files [] [] = Ok (texts, metas) ->
  texts <> [] ->
  connected cfg w = Ok c ->
  embeddings_up w = true ->
  RagChain.save_upload_and_index cfg ext course_name files w
  = (Ok (length texts),
     Chroma.set_store c
       (<[_get_collection_name course_name := Chroma.documents texts metas]>
          (Chroma.store_of c w)) w).
Proof.
  intros H N C E. unfold RagChain.save_upload_and_index, bind, lift.
  rewrite H. destruct texts as [|t ts]; [contradiction|].
  set (texts := t :: ts). set (cn := _get_collection_name course_name).
  unfold try_except at 1. rewrite client_run, C.
  unfold try_except, Chroma.delete_collection, RagChain._get_embeddings,
    Chroma.from_texts, Chroma.Chroma, bind, RagChain._clear_course_cache, ret.
  destruct (Chroma.store_of c w !! cn) as [old|] eqn:L.
  - rewrite embeddings_set_store, E.
    rewrite !store_of_set_store, lookup_delete_eq.
    rewrite !store_of_set_store, lookup_insert_eq. simpl.
    rewrite !set_store_twice, insert_insert_eq, insert_delete_eq. reflexivity.
  - rewrite E, L.
    rewrite !store_of_set_store, lookup_insert_eq. simpl.
    rewrite !set_store_twice, insert_insert_eq. reflexivity.
Qed.

Lemma save_passages (course_name : str) (files : list UploadedFile) (w : World)
    (c : Client) :
  readable cfg ext course_name files ->
  flat_map (passages_of cfg ext course_name) files <> [] ->
  connected cfg w = Ok c ->
  embeddings_up w = true ->
  RagChain.save_upload_and_index cfg ext course_name files w
  = (Ok (length (flat_map (passages_of cfg ext course_name) files)),
     Chroma.set_store c
       (<[_get_collection_name course_name :=
            flat_map (passages_of cfg ext course_name) files]>
          (Chroma.store_of c w)) w).
Proof.
  intros R N C E.
  destruct (collect_readable course_name files [] [] R) as (texts & metas & H).
  pose proof (collect_documents _ _ _ _ _ _ H eq_refl) as D.
  simpl in D.
  destruct (collect_shape cfg ext _ _ _ _ _ _ _ H eq_refl) as (Len & _).
  rewrite <- D, (length_documents _ _ Len).
  apply save_exact; try assumption.
  intros ->. apply N. rewrite <- D. reflexivity.
Qed.

Lemma save_no_client (course_name : str) (files : list UploadedFile) (w : World)
    (texts : list str) (metas : list Metadata) (e : exn) :
  RagChain.collect cfg ext course_name (_slugify course_name) files [] [] = Ok (texts, metas) ->
  connected cfg w = Raise e ->
  RagChain.save_upload_and_index cfg ext course_name files w = (Ok 0, w).
Proof.
  intros H C. unfold RagChain.save_upload_and_index, bind, lift.
  rewrite H. destruct texts as [|t ts]; [reflexivity|].
  unfold try_except at 1. rewrite client_run, C. reflexivity.
Qed.

Lemma save_no_model (course_name : str) (files : list UploadedFile) (w : World)
    (texts : list str) (metas : list Metadata) (c : Client) :
  RagChain.collect cfg ext course_name (_slugify course_name) files [] [] = Ok (texts, metas) ->
  texts <> [] ->
  connected cfg w = Ok c ->
  embeddings_up w = false ->
  RagChain.save_upload_and_index cfg ext course_name files w
  = (Ok 0,
     Chroma.set_store c
       (delete (_get_collection_name course_name) (Chroma.store_of c w)) w).
Proof.
  intros H N C E. unfold RagChain.save_upload_and_index, bind, lift.
  rewrite H. destruct texts as [|t ts]; [contradiction|].
  set (cn := _get_collection_name course_name).
  unfold try_except at 1. rewrite client_run, C.
  unfold try_except, Chroma.delete_collection, RagChain._get_embeddings, bind, ret.
  destruct (Chroma.store_of c w !! cn) as [old|] eqn:L.
  - rewrite embeddings_set_store, E. reflexivity.
  - rewrite E. rewrite (delete_id _ _ L), set_store_same. reflexivity.
Qed.

Lemma save_raises (course_name : str) (files : list UploadedFile) (w : World) (e : exn) :
  RagChain.collect cfg ext course_name (_slugify course_name) files [] [] = Raise e ->
  RagChain.save_upload_and_index cfg ext course_name files w = (Raise e, w).
Proof.
  intros H. unfold RagChain.save_upload_and_index, bind, lift. rewrite H. reflexivity.
Qed.

Lemma delete_exact (course_name : str) (w : World) (c : Client) :
  connected cfg w = Ok c ->
  RagChain.delete_course cfg course_name w
  = (Ok true,
     Chroma.set_store c
       (delete (_get_collection_name course_name) (Chroma.store_of c w)) w).
Proof.
  intros C. unfold RagChain.delete_course, try_except, bind. rewrite client_run, C.
  unfold Chroma.delete_collection, RagChain._clear_course_cache, ret.
  destruct (Chroma.store_of c w !! _get_collection_name course_name) eqn:L.
  - reflexivity.
  - rewrite (delete_id _ _ L), set_store_same. reflexivity.
Qed.

Lemma delete_no_client (course_name : str) (w : World) (e : exn) :
  connected cfg w = Raise e ->
  RagChain.delete_course cfg course_name w = (Ok false, w).
Proof.
  intros C. unfold RagChain.delete_course, try_except, bind. rewrite client_run, C.
  reflexivity.
Qed.

Lemma collection_of_set_store (course_name : str) (c : Client)
    (s : gmap str (list Document)) (w : World) :
  connected cfg w = Ok c ->
  collection_of cfg course_name (Chroma.set_store c s w)
  = s !! _get_collection_name course_name.
Proof.
  intros C. unfold collection_of.
  rewrite connected_set_store, C, store_of_set_store. reflexivity.
Qed.

Lemma vectorstore_found (course_name : str) (w : World) (c : Client)
    (docs : list Document) (d : Document) (ds : list Document) :
  connected cfg w = Ok c ->
  Chroma.store_of c w !! _get_collection_name course_name = Some docs ->
  embeddings_up w = true ->
  similarity_search ext (py "test") 1 docs = Ok (d :: ds) ->
  RagChain._get_vectorstore cfg ext course_name w
  = (Ok (Some {| Chroma.vs_client := c;
                 Chroma.vs_collection := _get_collection_name course_name |}), w).
Proof.
  intros C L E S.
  unfold RagChain._get_vectorstore, try_except, bind. rewrite client_run, C.
  unfold Chroma.get_collection. rewrite L.
  unfold RagChain._get_embeddings. rewrite E.
  unfold Chroma.Chroma. rewrite L.
  unfold RagChain.vs_similarity_search. simpl. rewrite L, S. reflexivity.
Qed.

Lemma vectorstore_unusable (course_name : str) (w : World) (docs : list Document) :
  collection_of cfg course_name w = Some docs ->
  (embeddings_up w = false
   \/ similarity_search ext (py "test") 1 docs = Ok []
   \/ exists e, similarity_search ext (py "test") 1 docs = Raise e) ->
  RagChain._get_vectorstore cfg ext course_name w = (Ok None, w).
Proof.
  intros H U. destruct (vectorstore_run cfg ext course_name w) as (o & R & P).
  rewrite R. destruct o as [vs|]; [|reflexivity].
  destruct (P vs eq_refl) as (c & docs' & C & _ & L & E & d & ds & S).
  unfold collection_of in H. rewrite C, L in H. injection H as ->.
  destruct U as [U | [U | (e & U)]]; congruence.
Qed.

Lemma retrieval_found (course_name query : str) (k : nat) (w : World) (c : Client)
    (docs : list Document) (d : Document) (ds : list Document) :
  connected cfg w = Ok c ->
  Chroma.store_of c w !! _get_collection_name course_name = Some docs ->
  embeddings_up w = true ->
  similarity_search ext (py "test") 1 docs = Ok (d :: ds) ->
  RagChain._get_relevant_documents cfg ext course_name query k w
  = (Ok (match similarity_search ext query k docs with
         | Ok r => r
         | Raise _ => []
         end), w).
Proof.
  intros C L E S. unfold RagChain._get_relevant_documents, bind.
  rewrite (vectorstore_found _ _ _ _ _ _ C L E S).
  unfold try_except, RagChain.vs_similarity_search. simpl. rewrite L.
  destruct (similarity_search ext query k docs); reflexivity.
Qed.

Lemma list_courses_run (w : World) :
  RagChain.list_all_courses cfg w
  = (Ok (match connected cfg w with
         | Ok c => map display_name
                     (List.filter (Str.startswith (py "course-"))
                        (map fst (map_to_list (Chroma.store_of c w))))
         | Raise _ => []
         end), w).
Proof.
  unfold RagChain.list_all_courses, try_except, bind. rewrite client_run.
  destruct (connected cfg w); reflexivity.
Qed.

Lemma heartbeat_connected (w : World) (c : Client) :
  connected cfg w = Ok c -> heartbeat c w = (Ok tt, w).
Proof.
  unfold connected, RagChain._get_chromadb_client, try_except,
    Chroma.cloud_client, Chroma.persistent_client, heartbeat.
  destruct (USE_CLOUD_CHROMA cfg), (cloud_up w) eqn:Cu, (local_up w) eqn:Lu;
    simpl; intros [= <-]; rewrite ?Cu, ?Lu; reflexivity.
Qed.

End Run.

End RunMore.

(** ** Diagnostics and the context block *)

Module DiagFacts.

Import Naming RunFacts RunMore.

Section Run.

Variable cfg : Config.
Variable ext : Externals.
Variable database : str.

Lemma info_run (w : World) :
  Diagnostics.get_chromadb_info cfg database w
  = (Ok (match connected cfg w with
         | Ok c =>
             {| ci_connected := true;
                ci_using_cloud := USE_CLOUD_CHROMA cfg;
                ci_database :=
                  Some (if USE_CLOUD_CHROMA cfg then database else py "Local");
                ci_total_collections :=
                  Some (length (map fst (map_to_list (Chroma.store_of c w))));
                ci_collections := Some (map fst (map_to_list (Chroma.store_of c w)));
                ci_embedding_model := Some (EMBEDDING_MODEL cfg);
                ci_error := None |}
         | Raise e =>
             {| ci_connected := false;
                ci_using_cloud := USE_CLOUD_CHROMA cfg;
                ci_database := None;
                ci_total_collections := None;
                ci_collections := None;
                ci_embedding_model := None;
                ci_error := Some (exn_str e) |}
         end), w).
Proof.
  unfold Diagnostics.get_chromadb_info, try_except, bind. rewrite client_run.
  destruct (connected cfg w); reflexivity.
Qed.

Lemma test_run (w : World) :
  Diagnostics.test_chromadb_connection cfg w
  = (Ok (match connected cfg w with
         | Ok _ => (true, py "ChromaDB connection successful")
         | Raise e => (false, py "ChromaDB connection failed: " ++ exn_str e)
         end), w).
Proof.
  unfold Diagnostics.test_chromadb_connection, try_except, bind. rewrite client_run.
  destruct (connected cfg w) as [c|e] eqn:C; [|reflexivity].
  rewrite (heartbeat_connected cfg w c C). reflexivity.
Qed.

Lemma context_run (course_name query : str) (k : nat) (w : World) :
  exists docs,
    RagChain._get_relevant_documents cfg ext course_name query k w = (Ok docs, w)
    /\ Diagnostics.build_context_block cfg ext course_name query k w
       = (Ok (match docs with
              | [] => ([], [])
              | _ => (str_join [newline; newline] (Diagnostics.format_docs ∅ docs), docs)
              end), w).
Proof.
  destruct (retrieval_run cfg ext course_name query k w) as (docs & R & _).
  exists docs. split; [exact R|].
  unfold Diagnostics.build_context_block, try_except, bind. rewrite R.
  destruct docs; reflexivity.
Qed.

End Run.

(** One block per key not met before. *)
Lemma format_docs_cons (seen : gset (str * str)) (d : Document) (rest : list Document) :
  Diagnostics.format_docs seen (d :: rest)
  = if bool_decide (doc_key d ∈ seen) then Diagnostics.format_docs seen rest
    else (py "[Source: " ++ source (metadata d) ++ py "]" ++ newline :: page_content d)
           :: Diagnostics.format_docs ({[doc_key d]} ∪ seen) rest.
Proof. reflexivity. Qed.

Lemma length_format_docs (seen : gset (str * str)) (docs : list Document) :
  length (Diagnostics.format_docs seen docs)
  = size ((list_to_set (map doc_key docs) : gset (str * str)) ∖ seen).
Proof.
  revert seen. induction docs as [|d rest IH]; intros seen.
  - change (0 = size ((∅ : gset (str * str)) ∖ seen)).
    symmetry. apply size_empty_iff.
    apply elem_of_equiv_empty. intros x. rewrite elem_of_difference.
    intros [I _]. exact (not_elem_of_empty x I).
  - rewrite format_docs_cons.
    change (list_to_set (map doc_key (d :: rest)) : gset (str * str))
      with ({[doc_key d]} ∪ (list_to_set (map doc_key rest) : gset (str * str))).
    case_bool_decide as K.
    + rewrite IH. f_equal. apply set_eq. intros x.
      rewrite !elem_of_difference, elem_of_union, elem_of_singleton.
      split; [tauto|]. intros [[->|I] N]; [contradiction | tauto].
    + change (length (?b :: ?l)) with (S (length l)). rewrite IH.
      assert (E : ({[doc_key d]} ∪ list_to_set (map doc_key rest)) ∖ seen
                  = ({[doc_key d]} : gset (str * str))
                    ∪ (list_to_set (map doc_key rest) : gset (str * str))
                      ∖ ({[doc_key d]} ∪ seen)).
      { apply set_eq. intros x.
        rewrite !elem_of_union, !elem_of_difference, !elem_of_union,
          !elem_of_singleton.
        destruct (decide (x = doc_key d)) as [->|Nx]; tauto. }
      assert (D : ({[doc_key d]} : gset (str * str))
                  ## (list_to_set (map doc_key rest) : gset (str * str))
                     ∖ ({[doc_key d]} ∪ seen)).
      { intros x. rewrite elem_of_singleton, elem_of_difference, elem_of_union,
          elem_of_singleton. tauto. }
      pose proof (size_union ({[doc_key d]} : gset (str * str)) _ D) as U.
      rewrite size_singleton in U. rewrite E, U. reflexivity.
Qed.

Lemma str_join_nil (sep : str) (parts : list str) :
  str_join sep parts = [] -> Forall (fun p => p = []) parts.
Proof.
  induction parts as [|p rest IH]; intros H; [constructor|].
  simpl in H. destruct rest as [|q rest'].
  - subst. repeat constructor.
  - apply app_eq_nil in H as [-> H]. apply app_eq_nil in H as [_ H].
    constructor; [reflexivity | apply IH, H].
Qed.

Lemma length_format_docs_le (seen : gset (str * str)) (docs : list Document) :
  length (Diagnostics.format_docs seen docs) <= length docs.
Proof.
  revert seen. induction docs as [|d rest IH]; intros seen; [reflexivity|].
  rewrite format_docs_cons. case_bool_decide.
  - specialize (IH seen). simpl. lia.
  - specialize (IH ({[doc_key d]} ∪ seen)). simpl. lia.
Qed.

Lemma format_docs_first (d : Document) (rest : list Document) :
  Diagnostics.format_docs ∅ (d :: rest)
  = (py "[Source: " ++ source (metadata d) ++ py "]" ++ newline :: page_content d)
      :: Diagnostics.format_docs ({[doc_key d]} ∪ ∅) rest.
Proof.
  rewrite format_docs_cons. case_bool_decide as K; [|reflexivity].
  exfalso. exact (not_elem_of_empty _ K).
Qed.

End DiagFacts.

(** ** SmartCache: dictionaries, eviction, capacity *)

Module CacheFacts.

Import SmartCacheModel.

Section Dict.

Context {A : Type}.

Lemma d_mem_keys (k : str) (d : dict A) : d_mem k d = true <-> In k (d_keys d).
Proof.
  unfold d_mem. induction d as [|[k' v] r IH]; simpl.
  - split; [discriminate | contradiction].
  - destruct (decide (k = k')) as [->|N].
    + split; [left; reflexivity | reflexivity].
    + rewrite IH. split; [right; assumption|]. intros [E|I]; [congruence | exact I].
Qed.

Lemma d_set_keys_present (k : str) (v : A) (d : dict A) :
  d_mem k d = true -> d_keys (d_set k v d) = d_keys d.
Proof.
  unfold d_mem. induction d as [|[k' v'] r IH]; simpl; [discriminate|].
  destruct (decide (k = k')) as [->|N]; [reflexivity|].
  intros M. simpl. rewrite (IH M). reflexivity.
Qed.

Lemma d_set_keys_in (k k' : str) (v : A) (d : dict A) :
  In k' (d_keys (d_set k v d)) <-> k' = k \/ In k' (d_keys d).
Proof.
  induction d as [|[k1 v1] r IH]; simpl.
  - split; [intros [E|[]]; left; congruence | intros [E|[]]; left; congruence].
  - destruct (decide (k = k1)) as [->|N]; simpl.
    + split; [intros [E|I]; auto | intros [E|[E|I]]; auto].
    + rewrite IH. tauto.
Qed.

Lemma d_pop_keys_in (k k' : str) (d : dict A) :
  In k' (d_keys (d_pop k d)) -> In k' (d_keys d).
Proof.
  induction d as [|[k1 v1] r IH]; simpl; [tauto|].
  destruct (decide (k = k1)); simpl; [tauto|]. intros [E|I]; auto.
Qed.

Lemma d_set_nodup (k : str) (v : A) (d : dict A) :
  NoDup (d_keys d) -> NoDup (d_keys (d_set k v d)).
Proof.
  induction d as [|[k1 v1] r IH]; simpl; intros N.
  - repeat constructor. intros I. inversion I.
  - inversion N as [|? ? Nk Nr]; subst.
    destruct (decide (k = k1)) as [->|D]; simpl; [constructor; assumption|].
    constructor; [|apply IH, Nr].
    intros I. apply list_elem_of_In, d_set_keys_in in I as [E|I]; [congruence|].
    apply Nk, list_elem_of_In, I.
Qed.

Lemma d_pop_nodup (k : str) (d : dict A) :
  NoDup (d_keys d) -> NoDup (d_keys (d_pop k d)).
Proof.
  induction d as [|[k1 v1] r IH]; simpl; intros N; [constructor|].
  inversion N as [|? ? Nk Nr]; subst.
  destruct (decide (k = k1)); simpl; [exact Nr|].
  constructor; [|apply IH, Nr].
  intros I. apply Nk, list_elem_of_In, (d_pop_keys_in k), list_elem_of_In, I.
Qed.

Lemma d_get_set (k : str) (v : A) (d : dict A) : d_get k (d_set k v d) = Some v.
Proof.
  induction d as [|[k1 v1] r IH]; simpl.
  - rewrite decide_True by reflexivity. reflexivity.
  - destruct (decide (k = k1)) as [->|N]; simpl.
    + rewrite decide_True by reflexivity. reflexivity.
    + rewrite decide_False by exact N. exact IH.
Qed.

Lemma d_get_set_other (k k' : str) (v : A) (d : dict A) :
  k' <> k -> d_get k' (d_set k v d) = d_get k' d.
Proof.
  intros N. induction d as [|[k1 v1] r IH]; simpl.
  - rewrite decide_False by exact N. reflexivity.
  - destruct (decide (k = k1)) as [->|D]; simpl.
    + rewrite !decide_False by exact N. reflexivity.
    + destruct (decide (k' = k1)); [reflexivity | exact IH].
Qed.

Lemma d_get_pop (k : str) (d : dict A) :
  NoDup (d_keys d) -> d_get k (d_pop k d) = None.
Proof.
  induction d as [|[k1 v1] r IH]; simpl; intros N; [reflexivity|].
  inversion N as [|? ? Nk Nr]; subst.
  destruct (decide (k = k1)) as [->|D]; simpl.
  - destruct (d_get k1 r) eqn:G; [|reflexivity].
    exfalso. apply Nk, list_elem_of_In, d_mem_keys. unfold d_mem. rewrite G. reflexivity.
  - rewrite decide_False by exact D. apply IH, Nr.
Qed.

Lemma d_get_pop_other (k k' : str) (d : dict A) :
  k' <> k -> d_get k' (d_pop k d) = d_get k' d.
Proof.
  intros N. induction d as [|[k1 v1] r IH]; simpl; [reflexivity|].
  destruct (decide (k = k1)) as [->|D]; simpl.
  - rewrite decide_False by exact N. reflexivity.
  - destruct (decide (k' = k1)); [reflexivity | exact IH].
Qed.

Lemma length_d_set (k : str) (v : A) (d : dict A) :
  length (d_set k v d) <= S (length d).
Proof.
  induction d as [|[k1 v1] r IH]; simpl; [lia|].
  destruct (decide (k = k1)); simpl; lia.
Qed.

Lemma length_d_pop (k : str) (d : dict A) :
  d_mem k d = true -> S (length (d_pop k d)) = length d.
Proof.
  unfold d_mem. induction d as [|[k1 v1] r IH]; simpl; [discriminate|].
  destruct (decide (k = k1)); simpl; [reflexivity|].
  intros M. rewrite (IH M). reflexivity.
Qed.

End Dict.

Section TwoDicts.

Context {A B : Type}.

Lemma d_mem_same_keys (k : str) (d : dict A) (d' : dict B) :
  d_keys d = d_keys d' -> d_mem k d = d_mem k d'.
Proof.
  intros E. destruct (d_mem k d') eqn:M.
  - apply d_mem_keys. rewrite E. apply d_mem_keys, M.
  - destruct (d_mem k d) eqn:M'; [|reflexivity].
    apply d_mem_keys in M'. rewrite E in M'. apply d_mem_keys in M'. congruence.
Qed.

Lemma d_set_same_keys (k : str) (v : A) (v' : B) (d : dict A) (d' : dict B) :
  d_keys d = d_keys d' -> d_keys (d_set k v d) = d_keys (d_set k v' d').
Proof.
  revert d'. induction d as [|[k1 v1] r IH]; intros [|[k2 v2] r'] E;
    try discriminate; [reflexivity|].
  simpl in E. injection E as <- E. simpl.
  destruct (decide (k = k1)); simpl; [rewrite E; reflexivity|].
  rewrite (IH r' E). reflexivity.
Qed.

Lemma d_pop_same_keys (k : str) (d : dict A) (d' : dict B) :
  d_keys d = d_keys d' -> d_keys (d_pop k d) = d_keys (d_pop k d').
Proof.
  revert d'. induction d as [|[k1 v1] r IH]; intros [|[k2 v2] r'] E;
    try discriminate; [reflexivity|].
  simpl in E. injection E as <- E. simpl.
  destruct (decide (k = k1)); simpl; [exact E|].
  rewrite (IH r' E). reflexivity.
Qed.

End TwoDicts.

(** The key chosen for eviction is a key of the dictionary, and no entry is
    older than it. *)
Lemma argmin_least (best : str) (least : Z) (d : dict Z) :
  exists t,
    In (argmin best least d, t) ((best, least) :: d)
    /\ (t <= least)%Z
    /\ forall k' t', In (k', t') d -> (t <= t')%Z.
Proof.
  revert best least. induction d as [|[k t] r IH]; intros best least; simpl.
  - exists least. split; [left; reflexivity|]. split; [lia|]. intros ? ? [].
  - destruct (t <? least)%Z eqn:L.
    + apply Z.ltb_lt in L. destruct (IH k t) as (t0 & I & Le & Min).
      exists t0. split; [right; exact I|]. split; [lia|].
      intros k' t' [[= <- <-]|I']; [exact Le | exact (Min _ _ I')].
    + apply Z.ltb_ge in L. destruct (IH best least) as (t0 & I & Le & Min).
      exists t0. split.
      * destruct I as [I|I]; [left; exact I | right; right; exact I].
      * split; [exact Le|].
        intros k' t' [[= <- <-]|I']; [lia | exact (Min _ _ I')].
Qed.

Lemma d_get_in {A : Type} (k : str) (v : A) (d : dict A) :
  d_get k d = Some v -> In (k, v) d.
Proof.
  induction d as [|[k1 v1] r IH]; simpl; [discriminate|].
  destruct (decide (k = k1)) as [->|N]; [intros [= ->]; left; reflexivity|].
  intros G. right. apply IH, G.
Qed.

Lemma in_d_get {A : Type} (k : str) (v : A) (d : dict A) :
  NoDup (d_keys d) -> In (k, v) d -> d_get k d = Some v.
Proof.
  induction d as [|[k1 v1] r IH]; simpl; intros N I; [contradiction|].
  inversion N as [|? ? Nk Nr]; subst.
  destruct I as [[= -> ->]|I].
  - rewrite decide_True by reflexivity. reflexivity.
  - destruct (decide (k = k1)) as [->|D]; [|apply IH; assumption].
    exfalso. apply Nk, list_elem_of_In, in_map_iff. exists (k1, v). auto.
Qed.

Section Cache.

Context {V : Type}.

Implicit Types c : SmartCache V.

Lemma consistent_init (m t : Z) : consistent (__init__ (V := V) m t).
Proof. repeat split. constructor. Qed.

Lemma consistent_clear c : consistent (clear c).
Proof. repeat split. constructor. Qed.

Lemma consistent_remove (key : str) c : consistent c -> consistent (_remove_key key c).
Proof.
  intros (Ha & Hc & N). unfold consistent. simpl.
  split; [apply d_pop_same_keys, Ha|].
  split; [apply d_pop_same_keys, Hc | apply d_pop_nodup, N].
Qed.

Lemma consistent_evict c : consistent c -> consistent (_evict_lru c).
Proof.
  intros H. unfold _evict_lru. destruct (access_times c) as [|[k t] r]; [exact H|].
  apply consistent_remove, H.
Qed.

Lemma consistent_get (key : str) (ttl : option Z) (now touched : Z) c :
  consistent c -> consistent (snd (get key ttl now touched c)).
Proof.
  intros H. unfold get.
  destruct (d_mem key (cache c)) eqn:M; simpl.
  - destruct (_is_expired key ttl now c); simpl; [apply consistent_remove, H|].
    destruct H as (Ha & Hc & N). unfold consistent. simpl.
    split; [|split; assumption].
    rewrite d_set_keys_present; [exact Ha|].
    rewrite (d_mem_same_keys key _ (cache c) Ha). exact M.
  - exact H.
Qed.

Lemma make_room_keeps (fuel : nat) c c' :
  make_room fuel c = Some c' ->
  max_size c' = max_size c /\ default_ttl c' = default_ttl c
  /\ (consistent c -> consistent c')
  /\ (Z.of_nat (length (cache c')) < max_size c')%Z.
Proof.
  revert c. induction fuel as [|f IH]; intros c H; [discriminate|].
  simpl in H. destruct (max_size c <=? Z.of_nat (length (cache c)))%Z eqn:L.
  - destruct (IH _ H) as (M & T & K & Lt).
    assert (E : max_size (_evict_lru c) = max_size c
                /\ default_ttl (_evict_lru c) = default_ttl c).
    { unfold _evict_lru. destruct (access_times c) as [|[k t] r]; split; reflexivity. }
    destruct E as [E1 E2]. rewrite M, T, E1, E2.
    split; [reflexivity|]. split; [reflexivity|].
    split; [|rewrite <- E1, <- M; exact Lt].
    intros Hc. apply K, consistent_evict, Hc.
  - injection H as <-. apply Z.leb_gt in L.
    split; [reflexivity|]. split; [reflexivity|]. split; [tauto | exact L].
Qed.

Lemma consistent_set (fuel : nat) (key : str) (value : V) (now : Z) c c' :
  consistent c -> set fuel key value now c = Some c' -> consistent c'.
Proof.
  intros H S. unfold set in S.
  destruct (make_room fuel c) as [c1|] eqn:R; [|discriminate].
  injection S as <-. destruct (make_room_keeps _ _ _ R) as (_ & _ & K & _).
  destruct (K H) as (Ha & Hc & N). unfold consistent. simpl.
  split; [apply d_set_same_keys, Ha|].
  split; [apply d_set_same_keys, Hc | apply d_set_nodup, N].
Qed.

Lemma built_consistent c : built c -> consistent c.
Proof.
  induction 1.
  - apply consistent_init.
  - apply consistent_get; assumption.
  - eapply consistent_set; eassumption.
  - apply consistent_clear.
  - apply consistent_remove; assumption.
  - apply consistent_evict; assumption.
Qed.

(** What an eviction does to a cache that holds an entry. *)
Lemma evict_nonempty c :
  consistent c -> cache c <> [] ->
  exists k t,
    _evict_lru c = _remove_key k c
    /\ d_get k (access_times c) = Some t
    /\ (forall k' t', d_get k' (access_times c) = Some t' -> (t <= t')%Z)
    /\ d_mem k (cache c) = true.
Proof.
  intros (Ha & Hc & N) Ne. unfold _evict_lru.
  destruct (access_times c) as [|[k0 t0] r] eqn:E.
  - destruct (cache c); [contradiction | discriminate].
  - destruct (argmin_least k0 t0 r) as (t & I & Le & Min).
    assert (Na : NoDup (d_keys ((k0, t0) :: r))) by (rewrite Ha; exact N).
    exists (argmin k0 t0 r), t. split; [reflexivity|].
    split; [apply in_d_get; assumption|]. split.
    + intros k' t' G. apply d_get_in in G. destruct G as [[= <- <-]|G].
      * exact Le.
      * exact (Min _ _ G).
    + apply d_mem_keys. rewrite <- Ha. apply in_map_iff.
      exists (argmin k0 t0 r, t). split; [reflexivity | exact I].
Qed.

Lemma make_room_ends (fuel : nat) c :
  consistent c -> (1 <= max_size c)%Z -> length (cache c) < fuel ->
  exists c', make_room fuel c = Some c'.
Proof.
  revert c. induction fuel as [|f IH]; intros c H M L; [lia|].
  simpl. destruct (max_size c <=? Z.of_nat (length (cache c)))%Z eqn:Full;
    [|eexists; reflexivity].
  apply Z.leb_le in Full.
  assert (Ne : cache c <> []) by (intros E; rewrite E in Full; simpl in Full; lia).
  destruct (evict_nonempty c H Ne) as (k & t & E & _ & _ & Mem).
  apply IH.
  - apply consistent_evict, H.
  - rewrite E. exact M.
  - rewrite E. simpl. pose proof (length_d_pop k (cache c) Mem). lia.
Qed.

Lemma make_room_never (fuel : nat) c :
  (max_size c <= 0)%Z -> make_room fuel c = None.
Proof.
  revert c. induction fuel as [|f IH]; intros c M; [reflexivity|].
  simpl. rewrite (proj2 (Z.leb_le _ _)) by lia.
  apply IH. unfold _evict_lru. destruct (access_times c) as [|[k t] r]; exact M.
Qed.

End Cache.

End CacheFacts.

(** * The claims *)

(** C5. [slugify] is idempotent on every string: slugifying a slug returns
    it unchanged.  Stated for [_slugify] of rag_chain.py and for [slugify] of
    utils.py. *)
Theorem slugify_idempotent (x : str) :
  Naming._slugify (Naming._slugify x) = Naming._slugify x
  /\ Utils.slugify (Utils.slugify x) = Utils.slugify x.
Proof.
  assert (I : Naming._slugify (Naming._slugify x) = Naming._slugify x).
  { apply SlugFacts.slugify_fixed.
    - apply SlugFacts.slug_sep_ok.
    - apply SlugFacts.slug_no_trailing_hyphen. }
  split; [exact I | exact I].
Qed.

(** C6. The collection name of a course is "course-" followed by the slug,
    cut to at most 63 characters, where the slug is the lower-cased name with
    every maximal run of non-alphanumeric characters collapsed to one hyphen
    and no hyphen in front or behind; "Data Structures & Algorithms!!" gives
    the slug "data-structures-algorithms" and the collection name
    "course-data-structures-algorithms". *)
Theorem collection_name_rule (course_name : str) :
  Naming._slugify course_name = Shape.slug_spec course_name
  /\ Naming._slugify course_name = Shape.slug_words course_name
  /\ Naming._get_collection_name course_name = Shape.collection_name_spec course_name
  /\ length (Naming._get_collection_name course_name) <= 63
  /\ Naming._slugify (py "Data Structures & Algorithms!!") = py "data-structures-algorithms"
  /\ Naming._get_collection_name (py "Data Structures & Algorithms!!")
     = py "course-data-structures-algorithms".
Proof.
  split; [apply SlugFacts.slugify_spec|].
  split; [apply SlugFacts.slugify_words|].
  split; [|split; [|split; vm_compute; reflexivity]].
  - unfold Naming._get_collection_name, Shape.collection_name_spec.
    rewrite <- SlugFacts.slugify_spec.
    destruct (63 <? length (py "course-" ++ Naming._slugify course_name)) eqn:L;
      [reflexivity|].
    apply Nat.ltb_ge in L. symmetry. apply take_ge. exact L.
  - unfold Naming._get_collection_name.
    destruct (63 <? length (py "course-" ++ Naming._slugify course_name)) eqn:L.
    + rewrite length_take. lia.
    + apply Nat.ltb_ge in L. exact L.
Qed.

(** C10. For a non-empty slug [s] over [a-z0-9-] with no leading, trailing
    or consecutive hyphens, the course name that [list_all_courses] shows for
    the collection "course-" ++ s (the slug with spaces for hyphens, in title
    case) slugifies back to [s]; when the collection name fits in 63
    characters, the shown name leads back to that collection. *)
Theorem listed_name_roundtrip (s : str) :
  Shape.valid_slug s = true ->
  Naming._slugify (Naming.display_name (py "course-" ++ s)) = s
  /\ (forall cfg w c docs,
      connected cfg w = Ok c ->
      Chroma.store_of c w !! (py "course-" ++ s) = Some docs ->
      In (Naming.display_name (py "course-" ++ s))
         (returned (RagChain.list_all_courses cfg w)))
  /\ (length s <= 56 ->
      Naming._get_collection_name (Naming.display_name (py "course-" ++ s))
      = py "course-" ++ s).
Proof.
  intros V. apply SlugFacts.valid_slug_shape in V as [H E].
  pose proof (SlugFacts.display_name_slug s H E) as R.
  split; [exact R|]. split.
  - intros cfg w c docs C L.
    apply (RunFacts.listed_course cfg w c _ docs C L). reflexivity.
  - intros L. unfold Naming._get_collection_name. rewrite R.
    destruct (63 <? length (py "course-" ++ s)) eqn:K; [|reflexivity].
    apply Nat.ltb_lt in K. rewrite length_app in K. simpl in K. lia.
Qed.

Lemma listed_name_roundtrip_witness :
  Shape.valid_slug (py "data-structures-3d") = true
  /\ Naming._slugify (Naming.display_name (py "course-data-structures-3d"))
     = py "data-structures-3d".
Proof.
  split; [reflexivity|].
  apply (listed_name_roundtrip (py "data-structures-3d")). reflexivity.
Defined.

(** C3. Retrieval for a course whose collection does not exist returns the
    empty list, raises nothing and leaves the stores as they are. *)
Theorem retrieval_without_collection (cfg : Config) (ext : Externals)
    (course_name query : str) (k : nat) (w : World) :
  collection_of cfg course_name w = None ->
  RagChain._get_relevant_documents cfg ext course_name query k w = (Ok [], w).
Proof. apply RunFacts.retrieval_missing. Qed.

Lemma retrieval_without_collection_witness :
  collection_of default_config (py "NoSuchCourse") fresh_world = None
  /\ RagChain._get_relevant_documents default_config sample_externals
       (py "NoSuchCourse") (py "anything") 5 fresh_world
     = (Ok [], fresh_world).
Proof.
  split; [reflexivity|].
  apply (retrieval_without_collection default_config sample_externals
           (py "NoSuchCourse") (py "anything") 5 fresh_world).
  reflexivity.
Defined.



(** C8. When the chunk list accumulated by [save_upload_and_index] ends up
    empty (in particular when every file of the batch has an unsupported
    extension or a text whose chunks are all blank) the function returns 0
    and every store is left as it was. *)
Theorem empty_chunk_list_leaves_store (cfg : Config) (ext : Externals)
    (course_name : str) (files : list UploadedFile) (w : World) :
  (Forall (contributes_nothing cfg ext (Naming._slugify course_name)) files
   \/ exists metas,
        RagChain.collect cfg ext course_name (Naming._slugify course_name) files [] []
        = Ok ([], metas)) ->
  RagChain.save_upload_and_index cfg ext course_name files w = (Ok 0, w).
Proof.
  intros [F | (metas & H)].
  - apply (RunFacts.save_empty cfg ext course_name files w []).
    apply RunFacts.collect_nothing, F.
  - exact (RunFacts.save_empty cfg ext course_name files w metas H).
Qed.

Lemma empty_chunk_list_leaves_store_witness :
  RagChain.collect default_config sample_externals (py "Physics")
    (Naming._slugify (py "Physics")) image_batch [] [] = Ok ([], [])
  /\ RagChain.save_upload_and_index default_config sample_externals
       (py "Physics") image_batch physics_world
     = (Ok 0, physics_world).
Proof.
  split; [reflexivity|].
  apply (empty_chunk_list_leaves_store default_config sample_externals
           (py "Physics") image_batch physics_world).
  right. exists []. reflexivity.
Defined.

(** C9. When the collection of a course exists but the probe search
    ("test", k = 1) returns no result, [_get_vectorstore] returns none and
    retrieval returns the empty list, as for a course with no collection. *)
Theorem empty_probe_is_no_store (cfg : Config) (ext : Externals)
    (course_name : str) (w : World) (docs : list Document) :
  collection_of cfg course_name w = Some docs ->
  similarity_search ext (py "test") 1 docs = Ok [] ->
  RagChain._get_vectorstore cfg ext course_name w = (Ok None, w)
  /\ forall query k,
       RagChain._get_relevant_documents cfg ext course_name query k w = (Ok [], w).
Proof.
  intros H S.
  pose proof (RunFacts.vectorstore_probe_empty cfg ext course_name w docs H S) as V.
  split; [exact V|].
  intros query k. unfold RagChain._get_relevant_documents, bind.
  rewrite V. reflexivity.
Qed.

Lemma empty_probe_is_no_store_witness :
  collection_of default_config (py "Physics") hollow_world = Some []
  /\ RagChain._get_vectorstore default_config sample_externals (py "Physics") hollow_world
     = (Ok None, hollow_world).
Proof.
  split; [reflexivity|].
  apply (empty_probe_is_no_store default_config sample_externals
           (py "Physics") hollow_world []); reflexivity.
Defined.

(** C1, as stated, fails: a second upload that is not empty but yields no
    chunk (here a single image) returns 0 and leaves the collection as it
    was, so retrieval still returns the passage of the first upload, whose
    source is no file of the second batch. *)
Lemma reindex_with_image_keeps_old_passages :
  collection_of default_config (py "Physics") physics_world = Some [old_passage]
  /\ image_batch <> []
  /\ RagChain.save_upload_and_index default_config sample_externals
       (py "Physics") image_batch physics_world
     = (Ok 0, physics_world)
  /\ RagChain._get_relevant_documents default_config sample_externals
       (py "Physics") (py "what is force") 5 physics_world
     = (Ok [old_passage], physics_world)
  /\ ~ In (source (metadata old_passage)) (map name image_batch).
Proof.
  split; [reflexivity|]. split; [discriminate|].
  split; [reflexivity|]. split; [reflexivity|].
  simpl. intros [H|[]]. discriminate.
Qed.

(** C1, amended. When the batch yields at least one non-blank chunk, a
    client of the backend is obtained and the embedding model loads,
    [save_upload_and_index] returns the number of chunks and the course's
    collection afterwards holds exactly the chunks of this batch, whatever it
    held before; the other collections are untouched; and a later retrieval
    returns only passages whose source is the name of a file of this
    batch. *)
Theorem reindex_replaces_collection (cfg : Config) (ext : Externals)
    (course_name : str) (files : list UploadedFile) (w : World)
    (texts : list str) (metas : list Metadata) (c : Client) :
  search_sound ext ->
  RagChain.collect cfg ext course_name (Naming._slugify course_name) files [] []
  = Ok (texts, metas) ->
  texts <> [] ->
  connected cfg w = Ok c ->
  embeddings_up w = true ->
  exists w',
    RagChain.save_upload_and_index cfg ext course_name files w = (Ok (length texts), w')
    /\ collection_of cfg course_name w' = Some (Chroma.documents texts metas)
    /\ length (Chroma.documents texts metas) = length texts
    /\ (forall other, other <> Naming._get_collection_name course_name ->
        Chroma.store_of c w' !! other = Chroma.store_of c w !! other)
    /\ (forall query k d,
        In d (returned (RagChain._get_relevant_documents cfg ext course_name query k w')) ->
        In (source (metadata d)) (map name files)).
Proof.
  intros Sound H N C E.
  destruct (RunFacts.save_run cfg ext course_name files w texts metas c H N C E)
    as (w' & R & L & Fr & C' & _).
  destruct (RunFacts.collect_shape cfg ext _ _ _ _ _ _ _ H eq_refl) as (Len & Src).
  assert (Col : collection_of cfg course_name w' = Some (Chroma.documents texts metas)).
  { unfold collection_of. rewrite C'. exact L. }
  exists w'. split; [exact R|]. split; [exact Col|].
  split; [apply RunFacts.length_documents, Len|]. split; [exact Fr|].
  intros query k d I.
  destruct (RunFacts.retrieval_run cfg ext course_name query k w') as (r & Rr & [-> | Q]).
  - unfold returned in I. rewrite Rr in I. contradiction.
  - destruct Q as (docs & Col' & S). rewrite Col in Col'. injection Col' as <-.
    unfold returned in I. rewrite Rr in I. simpl in I.
    pose proof (Sound _ _ _ _ S d I) as Id.
    apply RunFacts.documents_metadata in Id.
    destruct (Src _ Id) as [[]|Is]. exact Is.
Qed.

Lemma reindex_replaces_collection_witness :
  exists w',
    RagChain.save_upload_and_index default_config sample_externals
      (py "Physics") text_batch physics_world = (Ok 1, w')
    /\ collection_of default_config (py "Physics") w'
       = Some [ {| page_content := py "Light bends at a boundary.";
                   metadata := {| source := py "optics.txt"; course := py "Physics" |} |} ].
Proof.
  destruct (reindex_replaces_collection default_config sample_externals
              (py "Physics") text_batch physics_world
              [py "Light bends at a boundary."]
              [{| source := py "optics.txt"; course := py "Physics" |}]
              CloudClient)
    as (w' & R & Col & _).
  - exact RunFacts.sample_search_sound.
  - reflexivity.
  - discriminate.
  - reflexivity.
  - reflexivity.
  - exists w'. split; [exact R | exact Col].
Defined.

(** C7, as stated, fails: on a course with no collection [get_retriever]
    raises [ValueError]. *)
Lemma get_retriever_raises_without_collection :
  collection_of default_config (py "NoSuchCourse") fresh_world = None
  /\ RagChain.get_retriever default_config sample_externals (py "NoSuchCourse") fresh_world
     = (Raise (ValueError
                 (py "No vector store found for course: NoSuchCourse. Please upload files first.")),
        fresh_world).
Proof. split; reflexivity. Qed.

(** C7, amended. For a course with no collection the vector-store accessor
    returns none, retrieval returns the empty list, the status reports a
    course that is not ready with no document, and deletion returns a
    boolean; none of them raises or changes a store.  [get_retriever] is the
    exception: it raises [ValueError], asking to upload files first. *)
Theorem missing_collection_is_not_an_error (cfg : Config) (ext : Externals)
    (course_name : str) (w : World) :
  collection_of cfg course_name w = None ->
  RagChain._get_vectorstore cfg ext course_name w = (Ok None, w)
  /\ (forall query k,
      RagChain._get_relevant_documents cfg ext course_name query k w = (Ok [], w))
  /\ (exists s, RagChain.check_course_status cfg course_name w = (Ok s, w)
        /\ st_is_ready s = false
        /\ st_has_vectorstore s = false
        /\ st_document_count s = 0)
  /\ (exists b, RagChain.delete_course cfg course_name w = (Ok b, w))
  /\ RagChain.get_retriever cfg ext course_name w
     = (Raise (ValueError (py "No vector store found for course: " ++ course_name
                           ++ py ". Please upload files first.")), w).
Proof.
  intros H.
  split; [apply RunFacts.vectorstore_missing, H|].
  split; [intros query k; apply RunFacts.retrieval_missing, H|].
  split; [|split; [apply RunFacts.delete_missing, H | apply RunFacts.retriever_missing, H]].
  destruct (RunFacts.status_run cfg course_name w) as (s & R & P).
  exists s. split; [exact R|]. unfold collection_of in H.
  destruct (connected cfg w) as [c|e].
  - destruct P as (_ & _ & P). rewrite H in P. destruct P as (P1 & P2 & P3). auto.
  - destruct P as (_ & P1 & P2 & P3). auto.
Qed.

Lemma missing_collection_is_not_an_error_witness :
  collection_of default_config (py "NoSuchCourse") fresh_world = None
  /\ RagChain._get_vectorstore default_config sample_externals (py "NoSuchCourse") fresh_world
     = (Ok None, fresh_world).
Proof.
  split; [reflexivity|].
  apply (missing_collection_is_not_an_error default_config sample_externals
           (py "NoSuchCourse") fresh_world).
  reflexivity.
Defined.

(** * Further properties of the code *)

(** ** Naming *)

(** X1. The slugs are exactly the empty string and the well-formed slugs: a
    slug is made of [a-z0-9] and single inner hyphens, and every such string
    is the slug of a name, namely of itself. *)
Theorem slug_range (s : str) :
  (exists x, Naming._slugify x = s) <-> (s = [] \/ Shape.valid_slug s = true).
Proof.
  split.
  - intros (x & <-). apply SlugMore.slug_valid.
  - intros [-> | V].
    + exists []. reflexivity.
    + exists s. apply SlugFacts.valid_slug_shape in V as [H E].
      apply SlugFacts.slugify_fixed; assumption.
Qed.

(** X2. Every collection name starts with "course-", has between 7 and 63
    characters and holds nothing but [a-z0-9] and hyphens. *)
Theorem collection_name_well_formed (course_name : str) :
  Str.startswith (py "course-") (Naming._get_collection_name course_name) = true
  /\ 7 <= length (Naming._get_collection_name course_name) <= 63
  /\ forallb Shape.slug_char (Naming._get_collection_name course_name) = true.
Proof.
  assert (F : forallb Shape.slug_char (Naming._slugify course_name) = true).
  { pose proof (SlugFacts.slug_sep_ok course_name) as H.
    apply (SlugMore.sep_ok_shape true), H. }
  unfold Naming._get_collection_name.
  destruct (63 <? length (py "course-" ++ Naming._slugify course_name)) eqn:L.
  - apply Nat.ltb_lt in L. rewrite length_take.
    split; [reflexivity|]. split; [lia|].
    apply forallb_forall. intros c I.
    apply list_elem_of_In, elem_of_take in I as (i & I & _).
    apply list_elem_of_lookup_2, list_elem_of_In in I.
    apply in_app_or in I as [I|I].
    + revert c I. apply forallb_forall. reflexivity.
    + revert c I. apply forallb_forall. exact F.
  - apply Nat.ltb_ge in L. split; [reflexivity|]. split.
    + split; [|exact L]. rewrite length_app. simpl. lia.
    + rewrite forallb_app, F. reflexivity.
Qed.

(** X3. Two names have the same slug exactly when their lower-cased forms
    have the same runs of [a-z0-9] characters: nothing else of a name reaches
    its collection name. *)
Theorem same_slug_iff_same_words (x y : str) :
  Naming._slugify x = Naming._slugify y
  <-> Shape.words (Str.lower x) = Shape.words (Str.lower y).
Proof.
  split.
  - intros E. rewrite <- !SlugMore.words_of_slug, E. reflexivity.
  - intros E. rewrite !SlugFacts.slugify_words. unfold Shape.slug_words.
    rewrite E. reflexivity.
Qed.

(** X4. The collection of a course does not depend on the letter case of its
    name nor on white space around it. *)
Theorem collection_name_ignores_case_and_margins (course_name : str) :
  Naming._get_collection_name (Str.lower course_name)
  = Naming._get_collection_name course_name
  /\ Naming._get_collection_name (Str.strip course_name)
     = Naming._get_collection_name course_name.
Proof.
  unfold Naming._get_collection_name.
  rewrite SlugMore.slug_of_lower, SlugMore.slug_of_strip. split; reflexivity.
Qed.

(** X5. The slug is empty exactly when the lower-cased name holds no
    character of [a-z0-9]; all such names share the collection "course-". *)
Theorem empty_slug_iff_no_alnum (course_name : str) :
  (Naming._slugify course_name = []
   <-> forallb (fun c => negb (Char.alnum c)) (Str.lower course_name) = true)
  /\ (Naming._slugify course_name = [] ->
      Naming._get_collection_name course_name = py "course-").
Proof.
  split.
  - rewrite SlugFacts.slugify_words. unfold Shape.slug_words.
    rewrite SlugMore.join_nil_iff, SlugMore.words_nil. reflexivity.
  - intros E. unfold Naming._get_collection_name. rewrite E. reflexivity.
Qed.

(** X7. When the slug of a course has at most 56 characters (its collection
    name is not cut), the name that [list_all_courses] shows for the course's
    collection leads back to the same collection. *)
Theorem listed_name_leads_back (course_name : str) :
  length (Naming._slugify course_name) <= 56 ->
  Naming._get_collection_name
    (Naming.display_name (Naming._get_collection_name course_name))
  = Naming._get_collection_name course_name.
Proof. apply SlugMore.name_leads_back. Qed.

Lemma listed_name_leads_back_witness :
  length (Naming._slugify (py "Data Structures & Algorithms!!")) <= 56
  /\ Naming._get_collection_name
       (Naming.display_name
          (Naming._get_collection_name (py "Data Structures & Algorithms!!")))
     = Naming._get_collection_name (py "Data Structures & Algorithms!!").
Proof.
  split; [vm_compute; lia|].
  apply (listed_name_leads_back (py "Data Structures & Algorithms!!")).
  vm_compute. lia.
Defined.

(** ** Indexing *)

(** X8. When every file of the batch can be read, the batch yields a
    passage, a client is obtained and the embedding model loads, the upload
    returns the number of passages and changes one thing only: the course's
    collection now holds, in upload order, the non-blank chunks of the files
    with a supported extension, each under its file's name and the course
    name. *)
Theorem upload_stores_the_chunks (cfg : Config) (ext : Externals)
    (course_name : str) (files : list UploadedFile) (w : World) (c : Client) :
  readable cfg ext course_name files ->
  flat_map (passages_of cfg ext course_name) files <> [] ->
  connected cfg w = Ok c ->
  embeddings_up w = true ->
  RagChain.save_upload_and_index cfg ext course_name files w
  = (Ok (length (flat_map (passages_of cfg ext course_name) files)),
     Chroma.set_store c
       (<[Naming._get_collection_name course_name :=
            flat_map (passages_of cfg ext course_name) files]>
          (Chroma.store_of c w)) w).
Proof. apply RunMore.save_passages. Qed.

Lemma upload_stores_the_chunks_witness :
  RagChain.save_upload_and_index default_config sample_externals
    (py "Physics") text_batch physics_world
  = (Ok (length (flat_map (passages_of default_config sample_externals (py "Physics"))
                   text_batch)),
     Chroma.set_store CloudClient
       (<[Naming._get_collection_name (py "Physics") :=
            flat_map (passages_of default_config sample_externals (py "Physics"))
              text_batch]>
          (Chroma.store_of CloudClient physics_world)) physics_world).
Proof.
  apply (upload_stores_the_chunks default_config sample_externals
           (py "Physics") text_batch physics_world CloudClient).
  - repeat constructor; eexists; reflexivity.
  - discriminate.
  - reflexivity.
  - reflexivity.
Defined.

(** X9. After such an upload the status of the course is ready, carries no
    error, and counts as many documents as the upload returned. *)
Theorem upload_then_status (cfg : Config) (ext : Externals)
    (course_name : str) (files : list UploadedFile) (w : World) (c : Client) :
  readable cfg ext course_name files ->
  flat_map (passages_of cfg ext course_name) files <> [] ->
  connected cfg w = Ok c ->
  embeddings_up w = true ->
  exists n w' s,
    RagChain.save_upload_and_index cfg ext course_name files w = (Ok n, w')
    /\ 0 < n
    /\ RagChain.check_course_status cfg course_name w' = (Ok s, w')
    /\ st_document_count s = n
    /\ st_is_ready s = true
    /\ st_has_vectorstore s = true
    /\ st_error s = None.
Proof.
  intros R N C E.
  pose proof (RunMore.save_passages cfg ext course_name files w c R N C E) as S.
  set (docs := flat_map (passages_of cfg ext course_name) files) in *.
  set (w' := Chroma.set_store c
               (<[Naming._get_collection_name course_name := docs]>
                  (Chroma.store_of c w)) w) in *.
  assert (Pos : 0 < length docs) by (destruct docs; [contradiction | simpl; lia]).
  destruct (RunFacts.status_run cfg course_name w') as (s & Rs & P).
  exists (length docs), w', s. split; [exact S|]. split; [exact Pos|].
  split; [exact Rs|].
  unfold w' in P. rewrite RunFacts.connected_set_store, C in P.
  rewrite RunFacts.store_of_set_store, lookup_insert_eq in P.
  destruct P as (Er & _ & Hv & Cn & Rd).
  split; [exact Cn|]. split; [|split; assumption].
  rewrite Rd. apply Nat.ltb_lt, Pos.
Qed.

Lemma upload_then_status_witness :
  exists n w' s,
    RagChain.save_upload_and_index default_config sample_externals
      (py "Physics") text_batch physics_world = (Ok n, w')
    /\ 0 < n
    /\ RagChain.check_course_status default_config (py "Physics") w' = (Ok s, w')
    /\ st_document_count s = n
    /\ st_is_ready s = true
    /\ st_has_vectorstore s = true
    /\ st_error s = None.
Proof.
  apply (upload_then_status default_config sample_externals
           (py "Physics") text_batch physics_world CloudClient).
  - repeat constructor; eexists; reflexivity.
  - discriminate.
  - reflexivity.
  - reflexivity.
Defined.

(** X10. When the files can be read but no client of the backend can be
    obtained, the upload returns 0, raises nothing and leaves the stores as
    they were. *)
Theorem upload_without_backend (cfg : Config) (ext : Externals)
    (course_name : str) (files : list UploadedFile) (w : World) (e : exn) :
  readable cfg ext course_name files ->
  connected cfg w = Raise e ->
  RagChain.save_upload_and_index cfg ext course_name files w = (Ok 0, w).
Proof.
  intros R C.
  destruct (RunMore.collect_readable cfg ext course_name files [] [] R)
    as (texts & metas & H).
  exact (RunMore.save_no_client cfg ext course_name files w texts metas e H C).
Qed.

Lemma upload_without_backend_witness :
  RagChain.save_upload_and_index default_config sample_externals
    (py "Physics") text_batch offline_world = (Ok 0, offline_world).
Proof.
  apply (upload_without_backend default_config sample_externals
           (py "Physics") text_batch offline_world ConnectionError).
  - repeat constructor; eexists; reflexivity.
  - reflexivity.
Defined.

(** X11. When the embedding model fails to load, an upload that yields
    passages returns 0 after the course's previous collection has been
    deleted: the course is left with no collection and its status is not
    ready, while the other collections are untouched. *)
Theorem failed_upload_drops_the_collection (cfg : Config) (ext : Externals)
    (course_name : str) (files : list UploadedFile) (w : World) (c : Client) :
  readable cfg ext course_name files ->
  flat_map (passages_of cfg ext course_name) files <> [] ->
  connected cfg w = Ok c ->
  embeddings_up w = false ->
  exists w' s,
    RagChain.save_upload_and_index cfg ext course_name files w = (Ok 0, w')
    /\ collection_of cfg course_name w' = None
    /\ (forall other, other <> Naming._get_collection_name course_name ->
        Chroma.store_of c w' !! other = Chroma.store_of c w !! other)
    /\ RagChain.check_course_status cfg course_name w' = (Ok s, w')
    /\ st_is_ready s = false
    /\ st_has_vectorstore s = false.
Proof.
  intros R N C E.
  destruct (RunMore.collect_readable cfg ext course_name files [] [] R)
    as (texts & metas & H).
  pose proof (RunMore.collect_documents cfg ext _ _ _ _ _ _ H eq_refl) as D.
  simpl in D.
  assert (Nt : texts <> []) by (intros ->; apply N; rewrite <- D; reflexivity).
  pose proof (RunMore.save_no_model cfg ext course_name files w texts metas c H Nt C E) as S.
  set (w' := Chroma.set_store c
               (delete (Naming._get_collection_name course_name)
                  (Chroma.store_of c w)) w) in *.
  assert (Col : collection_of cfg course_name w' = None).
  { unfold w'. rewrite (RunMore.collection_of_set_store cfg _ _ _ _ C).
    apply lookup_delete_eq. }
  destruct (RunFacts.status_run cfg course_name w') as (s & Rs & P).
  exists w', s. split; [exact S|]. split; [exact Col|]. split.
  - intros other O. unfold w'. rewrite RunFacts.store_of_set_store.
    apply lookup_delete_ne. congruence.
  - split; [exact Rs|]. unfold collection_of in Col.
    destruct (connected cfg w') as [c'|e'].
    + destruct P as (_ & _ & P). rewrite Col in P.
      destruct P as (P1 & _ & P3). split; assumption.
    + destruct P as (_ & P1 & _ & P3). split; assumption.
Qed.

Lemma failed_upload_drops_the_collection_witness :
  collection_of default_config (py "Physics") no_model_world = Some [old_passage]
  /\ exists w' s,
       RagChain.save_upload_and_index default_config sample_externals
         (py "Physics") text_batch no_model_world = (Ok 0, w')
       /\ collection_of default_config (py "Physics") w' = None
       /\ (forall other, other <> Naming._get_collection_name (py "Physics") ->
           Chroma.store_of CloudClient w' !! other
           = Chroma.store_of CloudClient no_model_world !! other)
       /\ RagChain.check_course_status default_config (py "Physics") w' = (Ok s, w')
       /\ st_is_ready s = false
       /\ st_has_vectorstore s = false.
Proof.
  split; [reflexivity|].
  apply (failed_upload_drops_the_collection default_config sample_externals
           (py "Physics") text_batch no_model_world CloudClient).
  - repeat constructor; eexists; reflexivity.
  - discriminate.
  - reflexivity.
  - reflexivity.
Defined.

(** X12. A file that the reader rejects aborts the whole upload: the
    exception leaves [save_upload_and_index], whatever the other files are,
    and no store is changed. *)
Theorem unreadable_file_aborts_upload (cfg : Config) (ext : Externals)
    (course_name : str) (files : list UploadedFile) (w : World)
    (f : UploadedFile) (e : exn) :
  In f files ->
  RagChain.extract cfg ext (Naming._slugify course_name) f = Raise e ->
  exists e',
    RagChain.save_upload_and_index cfg ext course_name files w = (Raise e', w).
Proof.
  intros I H.
  destruct (RunMore.collect_raises cfg ext course_name files [] [] f e I H) as (e' & Hc).
  exists e'. apply RunMore.save_raises, Hc.
Qed.

Lemma unreadable_file_aborts_upload_witness :
  exists e',
    RagChain.save_upload_and_index default_config broken_reader
      (py "Physics") mixed_batch physics_world = (Raise e', physics_world).
Proof.
  apply (unreadable_file_aborts_upload default_config broken_reader
           (py "Physics") mixed_batch physics_world
           {| name := py "scan.PDF"; data := py "%PDF-1.7" |}
           (ExternalError (py "EOF marker not found"))).
  - right. left. reflexivity.
  - reflexivity.
Defined.

(** X13. Uploading the same batch a second time changes nothing: the count
    returned and the stores are those of the first upload, with no passage
    stored twice. *)
Theorem same_upload_twice (cfg : Config) (ext : Externals)
    (course_name : str) (files : list UploadedFile) (w : World) (c : Client) :
  readable cfg ext course_name files ->
  flat_map (passages_of cfg ext course_name) files <> [] ->
  connected cfg w = Ok c ->
  embeddings_up w = true ->
  exists n w',
    RagChain.save_upload_and_index cfg ext course_name files w = (Ok n, w')
    /\ RagChain.save_upload_and_index cfg ext course_name files w' = (Ok n, w').
Proof.
  intros R N C E.
  pose proof (RunMore.save_passages cfg ext course_name files w c R N C E) as S.
  set (docs := flat_map (passages_of cfg ext course_name) files) in *.
  set (w' := Chroma.set_store c
               (<[Naming._get_collection_name course_name := docs]>
                  (Chroma.store_of c w)) w) in *.
  exists (length docs), w'. split; [exact S|].
  assert (C' : connected cfg w' = Ok c).
  { unfold w'. rewrite RunFacts.connected_set_store. exact C. }
  assert (E' : embeddings_up w' = true).
  { unfold w'. rewrite RunFacts.embeddings_set_store. exact E. }
  rewrite (RunMore.save_passages cfg ext course_name files w' c R N C' E').
  fold docs. f_equal. unfold w'.
  rewrite RunFacts.store_of_set_store, RunMore.set_store_twice, insert_insert_eq.
  reflexivity.
Qed.

Lemma same_upload_twice_witness :
  exists n w',
    RagChain.save_upload_and_index default_config sample_externals
      (py "Physics") text_batch physics_world = (Ok n, w')
    /\ RagChain.save_upload_and_index default_config sample_externals
         (py "Physics") text_batch w' = (Ok n, w').
Proof.
  apply (same_upload_twice default_config sample_externals
           (py "Physics") text_batch physics_world CloudClient).
  - repeat constructor; eexists; reflexivity.
  - discriminate.
  - reflexivity.
  - reflexivity.
Defined.

(** ** Deletion *)

(** X14. When a client is obtained, [delete_course] raises nothing and the
    course has no collection afterwards: its status is not ready with no
    document, retrieval is empty, and the other collections are untouched. *)
Theorem delete_then_not_ready (cfg : Config) (ext : Externals)
    (course_name : str) (w : World) (c : Client) :
  connected cfg w = Ok c ->
  exists b w' s,
    RagChain.delete_course cfg course_name w = (Ok b, w')
    /\ collection_of cfg course_name w' = None
    /\ (forall other, other <> Naming._get_collection_name course_name ->
        Chroma.store_of c w' !! other = Chroma.store_of c w !! other)
    /\ RagChain.check_course_status cfg course_name w' = (Ok s, w')
    /\ st_is_ready s = false
    /\ st_document_count s = 0
    /\ (forall query k,
        RagChain._get_relevant_documents cfg ext course_name query k w' = (Ok [], w')).
Proof.
  intros C.
  pose proof (RunMore.delete_exact cfg course_name w c C) as D.
  set (w' := Chroma.set_store c
               (delete (Naming._get_collection_name course_name)
                  (Chroma.store_of c w)) w) in *.
  assert (Col : collection_of cfg course_name w' = None).
  { unfold w'. rewrite (RunMore.collection_of_set_store cfg _ _ _ _ C).
    apply lookup_delete_eq. }
  destruct (RunFacts.status_run cfg course_name w') as (s & Rs & P).
  exists true, w', s. split; [exact D|]. split; [exact Col|]. split.
  - intros other O. unfold w'. rewrite RunFacts.store_of_set_store.
    apply lookup_delete_ne. congruence.
  - split; [exact Rs|]. split; [|split].
    + unfold collection_of in Col. destruct (connected cfg w') as [c'|e'].
      * destruct P as (_ & _ & P). rewrite Col in P. apply P.
      * apply P.
    + unfold collection_of in Col. destruct (connected cfg w') as [c'|e'].
      * destruct P as (_ & _ & P). rewrite Col in P. apply P.
      * apply P.
    + intros query k. apply RunFacts.retrieval_missing, Col.
Qed.

Lemma delete_then_not_ready_witness :
  collection_of default_config (py "Physics") physics_world = Some [old_passage]
  /\ exists b w' s,
       RagChain.delete_course default_config (py "Physics") physics_world = (Ok b, w')
       /\ collection_of default_config (py "Physics") w' = None
       /\ (forall other, other <> Naming._get_collection_name (py "Physics") ->
           Chroma.store_of CloudClient w' !! other
           = Chroma.store_of CloudClient physics_world !! other)
       /\ RagChain.check_course_status default_config (py "Physics") w' = (Ok s, w')
       /\ st_is_ready s = false
       /\ st_document_count s = 0
       /\ (forall query k,
           RagChain._get_relevant_documents default_config sample_externals
             (py "Physics") query k w' = (Ok [], w')).
Proof.
  split; [reflexivity|].
  apply (delete_then_not_ready default_config sample_externals
           (py "Physics") physics_world CloudClient).
  reflexivity.
Defined.

(** X15. When no client of the backend can be obtained, [delete_course]
    returns false, raises nothing and leaves the stores as they were. *)
Theorem delete_without_backend (cfg : Config) (course_name : str) (w : World) (e : exn) :
  connected cfg w = Raise e ->
  RagChain.delete_course cfg course_name w = (Ok false, w).
Proof. apply RunMore.delete_no_client. Qed.

Lemma delete_without_backend_witness :
  RagChain.delete_course default_config (py "Physics") offline_world
  = (Ok false, offline_world).
Proof.
  apply (delete_without_backend default_config (py "Physics") offline_world
           ConnectionError).
  reflexivity.
Defined.

(** X16. Deleting a course a second time changes no store and raises
    nothing. *)
Theorem delete_twice (cfg : Config) (course_name : str) (w : World) :
  exists b b' w',
    RagChain.delete_course cfg course_name w = (Ok b, w')
    /\ RagChain.delete_course cfg course_name w' = (Ok b', w').
Proof.
  destruct (connected cfg w) as [c|e] eqn:C.
  - pose proof (RunMore.delete_exact cfg course_name w c C) as D.
    set (w' := Chroma.set_store c
                 (delete (Naming._get_collection_name course_name)
                    (Chroma.store_of c w)) w) in *.
    exists true, true, w'. split; [exact D|].
    assert (C' : connected cfg w' = Ok c).
    { unfold w'. rewrite RunFacts.connected_set_store. exact C. }
    rewrite (RunMore.delete_exact cfg course_name w' c C'). f_equal. unfold w'.
    rewrite RunFacts.store_of_set_store, RunMore.set_store_twice, delete_delete_eq.
    reflexivity.
  - pose proof (RunMore.delete_no_client cfg course_name w e C) as D.
    exists false, false, w. split; exact D.
Qed.

(** ** Queries *)

(** X17. The vector-store accessor, retrieval, [get_retriever], the status
    report, the course list, the two diagnostics and the context block leave
    every store as it was, whatever they return; in particular the accessor
    never creates a collection. *)
Theorem queries_leave_the_stores (cfg : Config) (ext : Externals)
    (database course_name query : str) (k : nat) (w : World) :
  snd (RagChain._get_vectorstore cfg ext course_name w) = w
  /\ snd (RagChain._get_relevant_documents cfg ext course_name query k w) = w
  /\ snd (RagChain.get_retriever cfg ext course_name w) = w
  /\ snd (RagChain.check_course_status cfg course_name w) = w
  /\ snd (RagChain.list_all_courses cfg w) = w
  /\ snd (Diagnostics.get_chromadb_info cfg database w) = w
  /\ snd (Diagnostics.test_chromadb_connection cfg w) = w
  /\ snd (Diagnostics.build_context_block cfg ext course_name query k w) = w.
Proof.
  destruct (RunFacts.vectorstore_run cfg ext course_name w) as (o & V & _).
  destruct (RunFacts.retrieval_run cfg ext course_name query k w) as (r & R & _).
  destruct (RunFacts.status_run cfg course_name w) as (s & S & _).
  destruct (DiagFacts.context_run cfg ext course_name query k w) as (docs & _ & B).
  rewrite V, R, S, B, RunMore.list_courses_run, DiagFacts.info_run, DiagFacts.test_run.
  repeat (split; [reflexivity|]).
  split; [|repeat (split; [reflexivity|]); reflexivity].
  unfold RagChain.get_retriever, bind. rewrite V. destruct o; reflexivity.
Qed.

(** X18. A collection that exists and holds documents is reported ready by
    the status, yet when the embedding model does not load, or the probe
    search returns nothing or raises, retrieval returns the empty list and
    [get_retriever] raises: readiness does not tell that the course can be
    queried. *)
Theorem ready_yet_not_retrievable (cfg : Config) (ext : Externals)
    (course_name : str) (w : World) (docs : list Document) :
  collection_of cfg course_name w = Some docs ->
  docs <> [] ->
  (embeddings_up w = false
   \/ similarity_search ext (py "test") 1 docs = Ok []
   \/ exists e, similarity_search ext (py "test") 1 docs = Raise e) ->
  exists s,
    RagChain.check_course_status cfg course_name w = (Ok s, w)
    /\ st_is_ready s = true
    /\ st_document_count s = length docs
    /\ (forall query k,
        RagChain._get_relevant_documents cfg ext course_name query k w = (Ok [], w))
    /\ exists e, RagChain.get_retriever cfg ext course_name w = (Raise e, w).
Proof.
  intros H N U.
  pose proof (RunMore.vectorstore_unusable cfg ext course_name w docs H U) as V.
  destruct (RunFacts.status_run cfg course_name w) as (s & Rs & P).
  exists s. split; [exact Rs|]. unfold collection_of in H.
  destruct (connected cfg w) as [c|e]; [|discriminate].
  destruct P as (_ & _ & P). rewrite H in P. destruct P as (_ & Cn & Rd).
  split; [|split; [exact Cn|split]].
  - rewrite Rd. apply Nat.ltb_lt. destruct docs; [contradiction | simpl; lia].
  - intros query k. unfold RagChain._get_relevant_documents, bind. rewrite V.
    reflexivity.
  - eexists. unfold RagChain.get_retriever, bind. rewrite V. reflexivity.
Qed.

Lemma ready_yet_not_retrievable_witness :
  exists s,
    RagChain.check_course_status default_config (py "Physics") no_model_world
    = (Ok s, no_model_world)
    /\ st_is_ready s = true
    /\ st_document_count s = length [old_passage]
    /\ (forall query k,
        RagChain._get_relevant_documents default_config sample_externals
          (py "Physics") query k no_model_world = (Ok [], no_model_world))
    /\ exists e,
         RagChain.get_retriever default_config sample_externals (py "Physics")
           no_model_world = (Raise e, no_model_world).
Proof.
  apply (ready_yet_not_retrievable default_config sample_externals
           (py "Physics") no_model_world [old_passage]).
  - reflexivity.
  - discriminate.
  - left. reflexivity.
Defined.

(** X19. After an upload that stores passages, if the probe search over
    them finds one, retrieval for any query is the store's search over
    exactly these passages (the empty list if that search raises), and
    [get_retriever] returns a retriever on the course's collection with
    k = TOP_K. *)
Theorem upload_then_retrieve (cfg : Config) (ext : Externals)
    (course_name : str) (files : list UploadedFile) (w : World) (c : Client)
    (d : Document) (ds : list Document) :
  readable cfg ext course_name files ->
  flat_map (passages_of cfg ext course_name) files <> [] ->
  connected cfg w = Ok c ->
  embeddings_up w = true ->
  similarity_search ext (py "test") 1
    (flat_map (passages_of cfg ext course_name) files) = Ok (d :: ds) ->
  exists n w',
    RagChain.save_upload_and_index cfg ext course_name files w = (Ok n, w')
    /\ (forall query k,
        RagChain._get_relevant_documents cfg ext course_name query k w'
        = (Ok (match similarity_search ext query k
                       (flat_map (passages_of cfg ext course_name) files) with
               | Ok r => r
               | Raise _ => []
               end), w'))
    /\ RagChain.get_retriever cfg ext course_name w'
       = (Ok {| r_store :=
                  {| Chroma.vs_client := c;
                     Chroma.vs_collection := Naming._get_collection_name course_name |};
                r_k := TOP_K cfg |}, w').
Proof.
  intros R N C E S.
  pose proof (RunMore.save_passages cfg ext course_name files w c R N C E) as Sv.
  set (docs := flat_map (passages_of cfg ext course_name) files) in *.
  set (w' := Chroma.set_store c
               (<[Naming._get_collection_name course_name := docs]>
                  (Chroma.store_of c w)) w) in *.
  assert (C' : connected cfg w' = Ok c).
  { unfold w'. rewrite RunFacts.connected_set_store. exact C. }
  assert (E' : embeddings_up w' = true).
  { unfold w'. rewrite RunFacts.embeddings_set_store. exact E. }
  assert (L : Chroma.store_of c w' !! Naming._get_collection_name course_name = Some docs).
  { unfold w'. rewrite RunFacts.store_of_set_store. apply lookup_insert_eq. }
  exists (length docs), w'. split; [exact Sv|]. split.
  - intros query k.
    apply (RunMore.retrieval_found cfg ext course_name query k w' c docs d ds C' L E' S).
  - unfold RagChain.get_retriever, bind.
    rewrite (RunMore.vectorstore_found cfg ext course_name w' c docs d ds C' L E' S).
    reflexivity.
Qed.

Lemma upload_then_retrieve_witness :
  exists n w',
    RagChain.save_upload_and_index default_config sample_externals
      (py "Physics") text_batch physics_world = (Ok n, w')
    /\ (forall query k,
        RagChain._get_relevant_documents default_config sample_externals
          (py "Physics") query k w'
        = (Ok (match similarity_search sample_externals query k
                       (flat_map (passages_of default_config sample_externals (py "Physics"))
                          text_batch) with
               | Ok r => r
               | Raise _ => []
               end), w'))
    /\ RagChain.get_retriever default_config sample_externals (py "Physics") w'
       = (Ok {| r_store :=
                  {| Chroma.vs_client := CloudClient;
                     Chroma.vs_collection := Naming._get_collection_name (py "Physics") |};
                r_k := TOP_K default_config |}, w').
Proof.
  eapply (upload_then_retrieve default_config sample_externals
            (py "Physics") text_batch physics_world CloudClient).
  - repeat constructor; eexists; reflexivity.
  - discriminate.
  - reflexivity.
  - reflexivity.
  - reflexivity.
Defined.

(** ** Diagnostics and listing *)

(** X21. With the remote store selected and down and the local store
    open, the fallback is taken and not reported: the info still says
    connected, using the cloud and the configured database, and the status
    says using the cloud with no error, while the collections listed and the
    documents counted are those of the local store. *)
Theorem fallback_is_not_reported (cfg : Config) (database course_name : str) (w : World) :
  USE_CLOUD_CHROMA cfg = true ->
  cloud_up w = false ->
  local_up w = true ->
  exists info s,
    connected cfg w = Ok PersistentClient
    /\ Diagnostics.get_chromadb_info cfg database w = (Ok info, w)
    /\ ci_connected info = true
    /\ ci_using_cloud info = true
    /\ ci_database info = Some database
    /\ ci_collections info = Some (map fst (map_to_list (local_store w)))
    /\ RagChain.check_course_status cfg course_name w = (Ok s, w)
    /\ st_using_cloud s = Some true
    /\ st_error s = None
    /\ st_document_count s
       = length (default [] (local_store w !! Naming._get_collection_name course_name)).
Proof.
  intros U Cu Lu.
  assert (C : connected cfg w = Ok PersistentClient).
  { unfold connected, RagChain._get_chromadb_client, try_except,
      Chroma.cloud_client, Chroma.persistent_client.
    rewrite U, Cu, Lu. reflexivity. }
  pose proof (DiagFacts.info_run cfg database w) as I.
  rewrite C, U in I.
  assert (S : exists s,
             RagChain.check_course_status cfg course_name w = (Ok s, w)
             /\ st_using_cloud s = Some true
             /\ st_error s = None
             /\ st_document_count s
                = length (default []
                            (local_store w !! Naming._get_collection_name course_name))).
  { unfold RagChain.check_course_status, try_except, bind.
    rewrite RunFacts.client_run, C. unfold Chroma.get_collection, Chroma.count. simpl.
    destruct (local_store w !! Naming._get_collection_name course_name) as [docs|] eqn:L.
    - simpl. rewrite L. eexists. split; [reflexivity|]. simpl. rewrite U. auto.
    - eexists. split; [reflexivity|]. simpl. rewrite U. auto. }
  destruct S as (s & S1 & S2 & S3 & S4).
  eexists _, s. split; [exact C|]. split; [exact I|].
  do 4 (split; [reflexivity|]). auto.
Qed.

Lemma fallback_is_not_reported_witness :
  exists info s,
    connected default_config fallback_world = Ok PersistentClient
    /\ Diagnostics.get_chromadb_info default_config (py "mindly") fallback_world
       = (Ok info, fallback_world)
    /\ ci_connected info = true
    /\ ci_using_cloud info = true
    /\ ci_database info = Some (py "mindly")
    /\ ci_collections info = Some (map fst (map_to_list (local_store fallback_world)))
    /\ RagChain.check_course_status default_config (py "Physics") fallback_world
       = (Ok s, fallback_world)
    /\ st_using_cloud s = Some true
    /\ st_error s = None
    /\ st_document_count s
       = length (default [] (local_store fallback_world
                             !! Naming._get_collection_name (py "Physics"))).
Proof.
  apply (fallback_is_not_reported default_config (py "mindly") (py "Physics")
           fallback_world); reflexivity.
Defined.

(** X22. [list_all_courses] never raises and lists exactly the display
    names of the collections of the connected store whose name starts with
    "course-"; it lists nothing when no client is obtained. *)
Theorem listed_courses (cfg : Config) (w : World) (shown : str) :
  (exists l, RagChain.list_all_courses cfg w = (Ok l, w))
  /\ (In shown (returned (RagChain.list_all_courses cfg w)) <->
      exists c collection docs,
        connected cfg w = Ok c
        /\ Chroma.store_of c w !! collection = Some docs
        /\ Str.startswith (py "course-") collection = true
        /\ shown = Naming.display_name collection).
Proof.
  rewrite RunMore.list_courses_run. split; [eexists; reflexivity|].
  unfold returned. simpl. destruct (connected cfg w) as [c|e].
  - rewrite in_map_iff. split.
    + intros (n & <- & I). apply filter_In in I as [I P].
      apply in_map_iff in I as ([n' docs] & <- & I).
      apply list_elem_of_In, elem_of_map_to_list in I.
      exists c, n', docs. auto.
    + intros (c' & n & docs & [= <-] & L & P & ->).
      exists n. split; [reflexivity|]. apply filter_In. split; [|exact P].
      apply in_map_iff. exists (n, docs). split; [reflexivity|].
      apply list_elem_of_In, elem_of_map_to_list, L.
  - split; [contradiction|]. intros (c & _ & _ & [=] & _).
Qed.

(** X23. After an upload that stores passages for a course whose slug has at
    most 56 characters, the course list shows a name that leads back to the
    course's collection. *)
Theorem uploaded_course_is_listed (cfg : Config) (ext : Externals)
    (course_name : str) (files : list UploadedFile) (w : World) (c : Client) :
  readable cfg ext course_name files ->
  flat_map (passages_of cfg ext course_name) files <> [] ->
  connected cfg w = Ok c ->
  embeddings_up w = true ->
  length (Naming._slugify course_name) <= 56 ->
  exists n w' shown,
    RagChain.save_upload_and_index cfg ext course_name files w = (Ok n, w')
    /\ In shown (returned (RagChain.list_all_courses cfg w'))
    /\ Naming._get_collection_name shown = Naming._get_collection_name course_name.
Proof.
  intros R N C E L.
  pose proof (RunMore.save_passages cfg ext course_name files w c R N C E) as Sv.
  set (docs := flat_map (passages_of cfg ext course_name) files) in *.
  set (w' := Chroma.set_store c
               (<[Naming._get_collection_name course_name := docs]>
                  (Chroma.store_of c w)) w) in *.
  exists (length docs), w',
    (Naming.display_name (Naming._get_collection_name course_name)).
  split; [exact Sv|]. split; [|apply SlugMore.name_leads_back, L].
  apply (RunFacts.listed_course cfg w' c _ docs).
  - unfold w'. rewrite RunFacts.connected_set_store. exact C.
  - unfold w'. rewrite RunFacts.store_of_set_store. apply lookup_insert_eq.
  - apply SlugMore.collection_name_prefix.
Qed.

Lemma uploaded_course_is_listed_witness :
  exists n w' shown,
    RagChain.save_upload_and_index default_config sample_externals
      (py "Physics") text_batch physics_world = (Ok n, w')
    /\ In shown (returned (RagChain.list_all_courses default_config w'))
    /\ Naming._get_collection_name shown = Naming._get_collection_name (py "Physics").
Proof.
  apply (uploaded_course_is_listed default_config sample_externals
           (py "Physics") text_batch physics_world CloudClient).
  - repeat constructor; eexists; reflexivity.
  - discriminate.
  - reflexivity.
  - reflexivity.
  - vm_compute. lia.
Defined.

(** ** The context block (app.py) *)

(** X24. [build_context_block] never raises and changes no store; it
    returns the retrieved documents in full, and its text is empty exactly
    when no document was retrieved. *)
Theorem context_block_empty_iff (cfg : Config) (ext : Externals)
    (course_name query : str) (k : nat) (w : World) :
  exists context docs,
    Diagnostics.build_context_block cfg ext course_name query k w
    = (Ok (context, docs), w)
    /\ RagChain._get_relevant_documents cfg ext course_name query k w = (Ok docs, w)
    /\ (context = [] <-> docs = []).
Proof.
  destruct (DiagFacts.context_run cfg ext course_name query k w) as (docs & R & B).
  destruct docs as [|d rest].
  - exists [], []. split; [exact B|]. split; [exact R|]. split; reflexivity.
  - eexists _, (d :: rest). split; [exact B|]. split; [exact R|].
    split; [|discriminate].
    intros H. apply DiagFacts.str_join_nil in H.
    rewrite DiagFacts.format_docs_first in H.
    inversion H as [|? ? Hb _]. discriminate Hb.
Qed.

(** X25. The loop of [build_context_block] writes one block per distinct
    key (source, first 80 characters of the passage): repeated passages are
    written once, so there are never more blocks than documents. *)
Theorem context_block_dedupes (docs : list Document) :
  length (Diagnostics.format_docs ∅ docs)
  = size (list_to_set (map doc_key docs) : gset (str * str))
  /\ length (Diagnostics.format_docs ∅ docs) <= length docs.
Proof.
  split; [|apply DiagFacts.length_format_docs_le].
  rewrite DiagFacts.length_format_docs. f_equal.
  apply set_eq. intros x. rewrite elem_of_difference.
  split; [tauto|]. intros I. split; [exact I | apply not_elem_of_empty].
Qed.

(** ** SmartCache (cache_utils.py) *)

(** X26. Every cache built from [SmartCache(...)] by [get], [set], [clear],
    [_remove_key] and [_evict_lru] keeps its three dictionaries on the same
    keys, each key once. *)
Theorem cache_dictionaries_agree {V : Type} (c : SmartCacheModel.SmartCache V) :
  SmartCacheModel.built c -> SmartCacheModel.consistent c.
Proof. apply CacheFacts.built_consistent. Qed.

Lemma cache_dictionaries_agree_witness :
  SmartCacheModel.consistent
    {| SmartCacheModel.max_size := 2; SmartCacheModel.default_ttl := 300;
       SmartCacheModel.cache := [(py "c", 3)];
       SmartCacheModel.access_times := [(py "c", 30%Z)];
       SmartCacheModel.creation_times := [(py "c", 30%Z)] |}.
Proof.
  apply (cache_dictionaries_agree
           {| SmartCacheModel.max_size := 2; SmartCacheModel.default_ttl := 300;
              SmartCacheModel.cache := [(py "c", 3)];
              SmartCacheModel.access_times := [(py "c", 30%Z)];
              SmartCacheModel.creation_times := [(py "c", 30%Z)] |}).
  apply (SmartCacheModel.built_evict nat
           {| SmartCacheModel.max_size := 2; SmartCacheModel.default_ttl := 300;
              SmartCacheModel.cache := [(py "b", 2); (py "c", 3)];
              SmartCacheModel.access_times := [(py "b", 20%Z); (py "c", 30%Z)];
              SmartCacheModel.creation_times := [(py "b", 20%Z); (py "c", 30%Z)] |}).
  apply (SmartCacheModel.built_set nat 3 (py "c") 3 30
           {| SmartCacheModel.max_size := 2; SmartCacheModel.default_ttl := 300;
              SmartCacheModel.cache := [(py "a", 1); (py "b", 2)];
              SmartCacheModel.access_times := [(py "a", 10%Z); (py "b", 20%Z)];
              SmartCacheModel.creation_times := [(py "a", 10%Z); (py "b", 20%Z)] |});
    [|reflexivity].
  apply (SmartCacheModel.built_set nat 1 (py "b") 2 20
           {| SmartCacheModel.max_size := 2; SmartCacheModel.default_ttl := 300;
              SmartCacheModel.cache := [(py "a", 1)];
              SmartCacheModel.access_times := [(py "a", 10%Z)];
              SmartCacheModel.creation_times := [(py "a", 10%Z)] |});
    [|reflexivity].
  apply (SmartCacheModel.built_set nat 1 (py "a") 1 10
           (SmartCacheModel.__init__ 2 300)); [|reflexivity].
  apply SmartCacheModel.built_init.
Defined.

(** X27. On a cache whose dictionaries agree and whose [max_size] is at
    least 1, [set] returns (one round of its loop per entry, and one more, is
    enough), the entry is stored, and the cache holds at most [max_size]
    entries afterwards. *)
Theorem set_respects_capacity {V : Type} (c : SmartCacheModel.SmartCache V)
    (key : str) (value : V) (now : Z) :
  SmartCacheModel.consistent c ->
  (1 <= SmartCacheModel.max_size c)%Z ->
  exists c',
    SmartCacheModel.set (S (length (SmartCacheModel.cache c))) key value now c = Some c'
    /\ (Z.of_nat (length (SmartCacheModel.cache c')) <= SmartCacheModel.max_size c')%Z
    /\ SmartCacheModel.max_size c' = SmartCacheModel.max_size c
    /\ SmartCacheModel.d_get key (SmartCacheModel.cache c') = Some value.
Proof.
  intros H M.
  destruct (CacheFacts.make_room_ends (S (length (SmartCacheModel.cache c))) c H M)
    as (c1 & R); [lia|].
  destruct (CacheFacts.make_room_keeps _ _ _ R) as (Ms & _ & _ & Lt).
  unfold SmartCacheModel.set. rewrite R. eexists. split; [reflexivity|]. simpl.
  split; [|split; [exact Ms | apply CacheFacts.d_get_set]].
  pose proof (CacheFacts.length_d_set key value (SmartCacheModel.cache c1)). lia.
Qed.

Lemma set_respects_capacity_witness :
  exists c',
    SmartCacheModel.set 1 (py "k") 7 10 (SmartCacheModel.__init__ (V := nat) 1 300)
    = Some c'
    /\ (Z.of_nat (length (SmartCacheModel.cache c')) <= SmartCacheModel.max_size c')%Z
    /\ SmartCacheModel.max_size c' = 1%Z
    /\ SmartCacheModel.d_get (py "k") (SmartCacheModel.cache c') = Some 7.
Proof.
  apply (set_respects_capacity (SmartCacheModel.__init__ (V := nat) 1 300)
           (py "k") 7 10).
  - apply CacheFacts.consistent_init.
  - simpl. lia.
Defined.

(** X28. An entry written by [set] at time [t] is served by [get] as long
    as its age does not exceed the time to live (the one passed, else the
    default); once it does, [get] returns nothing and removes the key from
    the three dictionaries. *)
Theorem entry_served_until_expired {V : Type} (c c' : SmartCacheModel.SmartCache V)
    (fuel : nat) (key : str) (value : V) (ttl : option Z) (t now touched : Z) :
  SmartCacheModel.consistent c ->
  SmartCacheModel.set fuel key value t c = Some c' ->
  ((now - t <= match ttl with Some x => x | None => SmartCacheModel.default_ttl c end)%Z ->
   fst (SmartCacheModel.get key ttl now touched c') = Some value)
  /\ ((match ttl with Some x => x | None => SmartCacheModel.default_ttl c end < now - t)%Z ->
      SmartCacheModel.get key ttl now touched c'
      = (None, SmartCacheModel._remove_key key c')
      /\ SmartCacheModel.d_mem key
           (SmartCacheModel.cache (SmartCacheModel._remove_key key c')) = false
      /\ SmartCacheModel.d_mem key
           (SmartCacheModel.access_times (SmartCacheModel._remove_key key c')) = false
      /\ SmartCacheModel.d_mem key
           (SmartCacheModel.creation_times (SmartCacheModel._remove_key key c')) = false).
Proof.
  intros H S.
  pose proof (CacheFacts.consistent_set _ _ _ _ _ _ H S) as (Ha & Hc & N).
  unfold SmartCacheModel.set in S.
  destruct (SmartCacheModel.make_room fuel c) as [c1|] eqn:R; [|discriminate].
  destruct (CacheFacts.make_room_keeps _ _ _ R) as (_ & T & _ & _).
  injection S as <-.
  assert (M : SmartCacheModel.d_mem key
                (SmartCacheModel.d_set key value (SmartCacheModel.cache c1)) = true).
  { unfold SmartCacheModel.d_mem. rewrite CacheFacts.d_get_set. reflexivity. }
  unfold SmartCacheModel.get, SmartCacheModel._is_expired. simpl in *.
  rewrite M, CacheFacts.d_get_set, T. split.
  - intros Fresh. rewrite (proj2 (Z.ltb_ge _ _)) by exact Fresh. simpl.
    apply CacheFacts.d_get_set.
  - intros Stale. rewrite (proj2 (Z.ltb_lt _ _)) by exact Stale. simpl.
    split; [reflexivity|]. unfold SmartCacheModel.d_mem.
    rewrite !CacheFacts.d_get_pop; [auto | | | ]; try assumption.
    + rewrite Hc. exact N.
    + rewrite Ha. exact N.
Qed.

Lemma entry_served_until_expired_witness :
  (fst (SmartCacheModel.get (py "k") None 310 311
          {| SmartCacheModel.max_size := 1; SmartCacheModel.default_ttl := 300;
             SmartCacheModel.cache := [(py "k", 7)];
             SmartCacheModel.access_times := [(py "k", 10%Z)];
             SmartCacheModel.creation_times := [(py "k", 10%Z)] |}) = Some 7).
Proof.
  apply (entry_served_until_expired
           (SmartCacheModel.__init__ (V := nat) 1 300) _ 1 (py "k") 7 None 10 310 311).
  - apply CacheFacts.consistent_init.
  - reflexivity.
  - simpl. lia.
Defined.

(** X29. With [max_size] at most 0 the loop of [set] never ends: whatever
    the number of rounds allowed, [set] does not return. *)
Theorem set_hangs_without_capacity {V : Type} (c : SmartCacheModel.SmartCache V)
    (fuel : nat) (key : str) (value : V) (now : Z) :
  (SmartCacheModel.max_size c <= 0)%Z ->
  SmartCacheModel.set fuel key value now c = None.
Proof.
  intros M. unfold SmartCacheModel.set.
  rewrite (CacheFacts.make_room_never fuel c M). reflexivity.
Qed.

Lemma set_hangs_without_capacity_witness :
  SmartCacheModel.set 1000 (py "k") 7 10 (SmartCacheModel.__init__ (V := nat) 0 300)
  = None.
Proof.
  apply (set_hangs_without_capacity (SmartCacheModel.__init__ (V := nat) 0 300)
           1000 (py "k") 7 10).
  simpl. lia.
Defined.

(** X30. On a cache that holds an entry, [_evict_lru] removes exactly one
    key, one whose access time no other entry undercuts, and leaves the other
    entries as they were. *)
Theorem eviction_removes_least_recent {V : Type} (c : SmartCacheModel.SmartCache V) :
  SmartCacheModel.consistent c ->
  SmartCacheModel.cache c <> [] ->
  exists k t,
    SmartCacheModel._evict_lru c = SmartCacheModel._remove_key k c
    /\ SmartCacheModel.d_get k (SmartCacheModel.access_times c) = Some t
    /\ (forall k' t',
        SmartCacheModel.d_get k' (SmartCacheModel.access_times c) = Some t' ->
        (t <= t')%Z)
    /\ SmartCacheModel.d_mem k (SmartCacheModel.cache (SmartCacheModel._evict_lru c))
       = false
    /\ S (length (SmartCacheModel.cache (SmartCacheModel._evict_lru c)))
       = length (SmartCacheModel.cache c)
    /\ (forall k', k' <> k ->
        SmartCacheModel.d_get k' (SmartCacheModel.cache (SmartCacheModel._evict_lru c))
        = SmartCacheModel.d_get k' (SmartCacheModel.cache c)).
Proof.
  intros H Ne.
  destruct (CacheFacts.evict_nonempty c H Ne) as (k & t & E & G & Min & Mem).
  destruct H as (_ & _ & N).
  exists k, t. rewrite E. simpl.
  split; [reflexivity|]. split; [exact G|]. split; [exact Min|]. split.
  - unfold SmartCacheModel.d_mem. rewrite CacheFacts.d_get_pop by exact N. reflexivity.
  - split; [apply CacheFacts.length_d_pop, Mem|].
    intros k' D. apply CacheFacts.d_get_pop_other, D.
Qed.

Lemma eviction_removes_least_recent_witness :
  exists k t,
    SmartCacheModel._evict_lru
      {| SmartCacheModel.max_size := 2; SmartCacheModel.default_ttl := 300;
         SmartCacheModel.cache := [(py "a", 1); (py "b", 2)];
         SmartCacheModel.access_times := [(py "a", 20%Z); (py "b", 10%Z)];
         SmartCacheModel.creation_times := [(py "a", 5%Z); (py "b", 10%Z)] |}
    = SmartCacheModel._remove_key k
        {| SmartCacheModel.max_size := 2; SmartCacheModel.default_ttl := 300;
           SmartCacheModel.cache := [(py "a", 1); (py "b", 2)];
           SmartCacheModel.access_times := [(py "a", 20%Z); (py "b", 10%Z)];
           SmartCacheModel.creation_times := [(py "a", 5%Z); (py "b", 10%Z)] |}
    /\ SmartCacheModel.d_get k [(py "a", 20%Z); (py "b", 10%Z)] = Some t.
Proof.
  destruct (eviction_removes_least_recent
              {| SmartCacheModel.max_size := 2; SmartCacheModel.default_ttl := 300;
                 SmartCacheModel.cache := [(py "a", 1); (py "b", 2)];
                 SmartCacheModel.access_times := [(py "a", 20%Z); (py "b", 10%Z)];
                 SmartCacheModel.creation_times := [(py "a", 5%Z); (py "b", 10%Z)] |})
    as (k & t & E & G & _).
  - split; [reflexivity|]. split; [reflexivity|].
    repeat constructor; rewrite ?list_elem_of_In; simpl; intuition discriminate.
  - discriminate.
  - exists k, t. split; [exact E | exact G].
Defined.
